(** * FrequencyVisualizer: the audio snapshot and its bar chart

    A shallow embedding of the [FrequencyVisualizer] component of
    [components/ResultsView.tsx]: the [processAudio] capture routine with its
    100 ms timer callback and the effect cleanup, and the [drawChart]
    renderer.

    JavaScript numbers are IEEE 754 binary64 values; they are modelled by
    Rocq's primitive floats, which have the same format and the same
    round-to-nearest-even arithmetic. *)

From Stdlib Require Import List Bool Ascii String Strings.Byte ZArith Lia.
From Stdlib Require Import DecimalString DecimalNat.
From Stdlib Require Uint63.
From Stdlib Require Import Floats.
Import ListNotations.

Set Warnings "-inexact-float".

Local Open Scope string_scope.
Local Open Scope float_scope.
Local Open Scope list_scope.

(** ** Numbers *)

Module Js.

(** An array index or a length, converted to a Number (exact: typed arrays
    are shorter than 2^53). *)
Definition ofNat (n : nat) : float := of_uint63 (Uint63.of_Z (Z.of_nat n)).

(** Truthiness of a Number: [0], [-0] and [NaN] are falsy. *)
Definition truthy (x : float) : bool := negb (is_zero x || is_nan x).

(** [a > b], [a >= b] as JavaScript writes them. *)
Definition gtb (a b : float) : bool := b <? a.
Definition geb (a b : float) : bool := b <=? a.

(** [Math.min] on two arguments: [NaN] if either is, and [-0] below [+0]. *)
Definition min (a b : float) : float :=
  if is_nan a then a
  else if is_nan b then b
  else if a <? b then a
  else if b <? a then b
  else if get_sign a then a else b.

End Js.

(** ** A reference host

    [Math.log10] and the d3 scales are the host's.  The properties below hold
    for every host; this one, built on a series for the natural logarithm,
    serves to run the model on concrete inputs. *)

Module RefHost.

Definition ofZ (z : Z) : float :=
  if (z <? 0)%Z then - of_uint63 (Uint63.of_Z (- z))
  else of_uint63 (Uint63.of_Z z).

Definition ln2 : float := 0x1.62e42fefa39efp-1.
Definition ln10 : float := 0x1.26bb1bbb55516p+1.

(** [acc + p/k + p*z2/(k+2) + ...], [n] terms. *)
Fixpoint atanhSeries (n : nat) (k p z2 acc : float) : float :=
  match n with
  | O => acc
  | S n' => atanhSeries n' (k + 2) (p * z2) z2 (acc + p / k)
  end.

(** Natural logarithm: [v = m * 2^e] with [m] brought near 1, and
    [ln m = 2 * atanh ((m - 1) / (m + 1))]. *)
Definition ln (v : float) : float :=
  if is_nan v then nan
  else if v <? 0 then nan
  else if is_zero v then neg_infinity
  else if is_infinity v then infinity
  else
    let (m, e) := Z.frexp v in
    let (m, e) := if m <? 0x1.6a09e667f3bcdp-1 then (m * 2, (e - 1)%Z) else (m, e) in
    let z := (m - 1) / (m + 1) in
    ofZ e * ln2 + 2 * atanhSeries 24 1 z (z * z) 0.

Definition log10 (v : float) : float := ln v / ln10.

Definition interpolate (range : float * float) (t : float) : float :=
  fst range * (1 - t) + snd range * t.

Definition scaleLinear (domain range : float * float) (v : float) : float :=
  interpolate range ((v - fst domain) / (snd domain - fst domain)).

Definition scaleLog (domain range : float * float) (v : float) : float :=
  interpolate range ((ln v - ln (fst domain)) / (ln (snd domain) - ln (fst domain))).

End RefHost.

(** ** Data model *)

(** [EQSetting] of [types.ts]: one band of the equaliser preset. *)
Module EQSetting.
Record t := { frequency : float; gain : float }.
End EQSetting.

(** One entry of [data] in [drawChart]: a bin of the analyser with its
    centre frequency.  The amplitude is an element of a [Uint8Array]. *)
Module Datum.
Record t := { frequency : float; amplitude : byte }.

Definition amplitudeNumber (d : t) : float :=
  Js.ofNat (N.to_nat (Byte.to_N (amplitude d))).
End Datum.

(** *** A row of the preset table

    The cells [ResultsView] shows for one band: the class and sign of the
    gain text, and the label and class of the action badge. *)
Module Row.




Definition actionClass (gain : float) : string :=
  if Js.gtb gain 0.1 then "bg-green-800/50 text-green-300"
  else if gain <? -0.1 then "bg-red-800/50 text-red-300"
  else "bg-gray-600 text-gray-300".

End Row.

(** The arguments of one [drawChart] call: what the capture hands to the
    renderer. *)
Record FrequencySnapshot := {
  magnitudes : list byte;
  sampleRate : float;
  diagnosticMessage : option string
}.

(** *** The drawing *)

Inductive Orient := Bottom | Left.

Record TextAttrs := {
  textAnchor : string;
  rotated : bool;              (* transform = rotate(-90) *)
  textX : float;
  textY : float;
  textFill : string;
  textContent : string
}.

Record Bar := {
  barX : float;
  barY : float;
  barWidthAttr : float;
  barHeight : float;
  barFill : string
}.

Inductive Element :=
| AxisGroup (translate : option (float * float)) (orient : Orient)
            (domain range : float * float) (tickFill : string)
| Text (attrs : TextAttrs)
| Rect (bar : Bar).

(** A [g] element appended to the [svg]. *)
Record Group := { transform : float * float; elements : list Element }.

(** The [svg] node behind [d3Container.current]: its bounding rectangle
    (decided by the page layout, not by its children) and its children. *)
Record SvgElement := {
  boundingWidth : float;
  boundingHeight : float;
  children : list Group
}.

Definition barOfElement (e : Element) : list Bar :=
  match e with Rect b => [b] | _ => [] end.

(** The bars a drawing shows: the [rect] elements of its groups. *)
Definition barsOf (svg : option SvgElement) : list Bar :=
  match svg with
  | None => []
  | Some node => flat_map (fun g => flat_map barOfElement (elements g)) (children node)
  end.

(** ** The capture: [processAudio], its timer callback, the effect cleanup *)

(** [AudioContext.state]. *)
Inductive ContextState := Suspended | Running | Closed.

(** What the component reads of a decoded [AudioBuffer]. *)
Module AudioBuffer.
Record t := { sampleRate : float; duration : float }.
End AudioBuffer.

(** The calls the component makes on its host, in the order made. *)
Inductive Call :=
| NewAudioContext
| BlobArrayBuffer
| DecodeAudioData
| ConsoleError
| ConsoleWarn
| CreateBufferSource
| CreateAnalyser (fftSize : nat)
| Connect
| SourceStart (when offset duration : float)
| SetTimeout (ms : nat)
| GetByteFrequencyData
| SourceStop
| DrawChart (snapshot : FrequencySnapshot)
| ContextClose.

(** Where [processAudio] is suspended. *)
Inductive Pending :=
| AwaitArrayBuffer
| AwaitDecode
| AwaitTimer (audioBuffer : AudioBuffer.t)
| Idle.

(** The promise [processAudio()] returns. *)
Inductive PromiseState := Unsettled | Fulfilled | Rejected.

(** What the host delivers to one run of the effect. *)
Inductive Event :=
| ArrayBufferSettled (ok : bool)
| DecodeSettled (result : option AudioBuffer.t)
| TimerFired (frequencyData : list byte)
| Cleanup.

(** The state one run of the effect shares between [processAudio], the timer
    callback and the cleanup: the [audioContext] variable they all close
    over, the container, and the record of host calls. *)
Record World := {
  audioContext : option ContextState;
  container : option SvgElement;
  pending : Pending;
  promise : PromiseState;
  calls : list Call
}.

Definition call (c : Call) (w : World) : World :=
  {| audioContext := audioContext w; container := container w;
     pending := pending w; promise := promise w;
     calls := calls w ++ [c] |}.

Definition setPending (p : Pending) (w : World) : World :=
  {| audioContext := audioContext w; container := container w;
     pending := p; promise := promise w; calls := calls w |}.

Definition settle (s : PromiseState) (w : World) : World :=
  {| audioContext := audioContext w; container := container w;
     pending := pending w; promise := s; calls := calls w |}.

(** [audioContext.close()]: the context is closed from the call on; a call
    on a closed context is still a call (its promise rejects). *)
Definition close (w : World) : World :=
  match audioContext w with
  | None => w
  | Some _ =>
      {| audioContext := Some Closed; container := container w;
         pending := pending w; promise := promise w;
         calls := calls w ++ [ContextClose] |}
  end.

Definition isClosed (w : World) : bool :=
  match audioContext w with
  | Some Closed => true
  | _ => false
  end.

Definition isCloseCall (c : Call) : bool :=
  match c with ContextClose => true | _ => false end.

(** How many times [close()] has been called on the context. *)
Definition closeCount (w : World) : nat :=
  List.length (filter isCloseCall (calls w)).

(** The count of [close()] calls agrees with the context's state: one call
    if it is closed, none if it is not. *)
Definition closedOnce (w : World) : Prop :=
  closeCount w = if isClosed w then 1%nat else 0%nat.

Definition isAnalyserCall (c : Call) : bool :=
  match c with GetByteFrequencyData | SourceStop => true | _ => false end.

(** The calls that read the analyser or stop the source, in order. *)
Definition analyserCalls (w : World) : list Call :=
  filter isAnalyserCall (calls w).

Definition snapshotOfCall (c : Call) : list FrequencySnapshot :=
  match c with DrawChart s => [s] | _ => [] end.

(** The snapshots handed to the renderer so far. *)
Definition snapshots (w : World) : list FrequencySnapshot :=
  flat_map snapshotOfCall (calls w).

Definition decodeErrorMessage : string := "Error decoding audio file.".
Definition silentMessage : string :=
  "Could not visualize audio: sample may be silent.".

(** ** Sample inputs *)

Module Sample.

(** The preset of the specification's example: +3 dB at 1 kHz, -2 dB at
    5 kHz. *)
Definition boost1k : EQSetting.t := {| EQSetting.frequency := 1000; EQSetting.gain := 3 |}.
Definition cut5k : EQSetting.t := {| EQSetting.frequency := 5000; EQSetting.gain := -2 |}.
Definition eqSettings : list EQSetting.t := [boost1k; cut5k].

(** A container laid out at 800 by 320 pixels, and one not laid out yet. *)
Definition svg : SvgElement :=
  {| boundingWidth := 800; boundingHeight := 320; children := [] |}.
Definition unlaid : SvgElement :=
  {| boundingWidth := 0; boundingHeight := 0; children := [] |}.

(** Analyser output: the 1024 bins of an [fftSize] of 2048, all at level 1;
    1024 silent bins; and a short array of four bins. *)
Definition flat : list byte := repeat x01 1024.
Definition silent : list byte := repeat x00 1024.
Definition four : list byte := [x01; x02; x03; x04].

Definition buffer : AudioBuffer.t :=
  {| AudioBuffer.sampleRate := 44100; AudioBuffer.duration := 3 |}.

Definition binAt (f : float) : Datum.t :=
  {| Datum.frequency := f; Datum.amplitude := x80 |}.

End Sample.

(** ** The renderer: [drawChart] *)

Module Margin.
Definition top : float := 20.
Definition right : float := 20.
Definition bottom : float := 40.
Definition left : float := 50.
End Margin.

Definition boostColor : string := "#22c55e".
Definition cutColor : string := "#ef4444".
Definition neutralColor : string := "#00BFFF".
Definition axisColor : string := "#9ca3af".
Definition messageColor : string := "#e5e7eb".

Section FrequencyVisualizer.

(** The host's [Math.log10] (the language leaves its precision to the
    implementation) and the two d3 scales, each taking its domain, its range
    and the value to map. *)
Variable log10 : float -> float.
Variable scaleLog scaleLinear : float * float -> float * float -> float -> float.

(** The [eqSettings] prop the component closes over. *)
Variable eqSettings : list EQSetting.t.

(** The predicate handed to [eqSettings.find]. *)
Definition near (f : float) (eq : EQSetting.t) : bool :=
  abs (log10 (EQSetting.frequency eq) - log10 f) <? 0.1.

Definition closestEq (f : float) : option EQSetting.t :=
  find (near f) eqSettings.

(** The [fill] attribute of a bar. *)
Definition fill (d : Datum.t) : string :=
  match closestEq (Datum.frequency d) with
  | Some eq => if Js.gtb (EQSetting.gain eq) 0 then boostColor else cutColor
  | None => neutralColor
  end.

(** [Array.from(dataArray).map((d, i) => ...)], from index [i] on. *)
Fixpoint mapBins (sampleRate : float) (len : nat) (i : nat) (dataArray : list byte)
  : list Datum.t :=
  match dataArray with
  | [] => []
  | d :: rest =>
      {| Datum.frequency := (Js.ofNat i * sampleRate) / (2 * Js.ofNat len);
         Datum.amplitude := d |} :: mapBins sampleRate len (S i) rest
  end.

Definition inDisplayRange (d : Datum.t) : bool :=
  Js.geb (Datum.frequency d) 20 && (Datum.frequency d <=? 20000).

(** The [data] array: every bin with its frequency, filtered to
    [20, 20000] Hz. *)
Definition binData (dataArray : list byte) (sampleRate : float) : list Datum.t :=
  filter inDisplayRange (mapBins sampleRate (List.length dataArray) 0 dataArray).

(** The [width] attribute of every bar. *)
Definition barWidthOf (barWidth : float) : float :=
  if Js.gtb barWidth 0 then barWidth else 1.

Definition plotWidth (containerWidth : float) : float :=
  containerWidth - Margin.left - Margin.right.

Definition plotHeight (containerHeight : float) : float :=
  containerHeight - Margin.top - Margin.bottom.

Definition x (width : float) : float -> float := scaleLog (20, 20000) (0, width).
Definition y (height : float) : float -> float := scaleLinear (0, 255) (height, 0).

Definition barOf (width height barWidth : float) (d : Datum.t) : Bar :=
  {| barX := x width (Datum.frequency d);
     barY := y height (Datum.amplitudeNumber d);
     barWidthAttr := barWidthOf barWidth;
     barHeight := height - y height (Datum.amplitudeNumber d);
     barFill := fill d |}.

(** Axes and axis titles, drawn whenever the plot area is not degenerate. *)
Definition frame (width height : float) : list Element :=
  [ AxisGroup (Some (0, height)) Bottom (20, 20000) (0, width) axisColor;
    AxisGroup None Left (0, 255) (height, 0) axisColor;
    Text {| textAnchor := "middle"; rotated := false;
            textX := width / 2; textY := height + Margin.bottom - 5;
            textFill := axisColor; textContent := "Frequency (Hz)" |};
    Text {| textAnchor := "middle"; rotated := true;
            textX := (- height) / 2; textY := (- Margin.left) + 15;
            textFill := axisColor; textContent := "Amplitude" |} ].

(** [message || "No audio data to display."]: an absent or empty message is
    falsy. *)
Definition placeholderText (message : option string) : string :=
  match message with
  | None | Some EmptyString => "No audio data to display."
  | Some m => m
  end.

Definition placeholder (width height : float) (message : option string) : Element :=
  Text {| textAnchor := "middle"; rotated := false;
          textX := width / 2; textY := height / 2;
          textFill := messageColor; textContent := placeholderText message |}.

(** [drawChart], as a function of the container it draws into.  The result
    is the container afterwards; a null [d3Container.current] stays null. *)
Definition drawChart (dataArray : list byte) (sampleRate : float)
    (message : option string) (container : option SvgElement)
  : option SvgElement :=
  match container with
  | None => None
  | Some svgNode =>
      (* svg.selectAll("*").remove() *)
      let cleared := {| boundingWidth := boundingWidth svgNode;
                        boundingHeight := boundingHeight svgNode;
                        children := [] |} in
      let width := plotWidth (boundingWidth svgNode) in
      let height := plotHeight (boundingHeight svgNode) in
      if (width <=? 0) || (height <=? 0) then Some cleared
      else
        let g (content : list Element) :=
          Some {| boundingWidth := boundingWidth svgNode;
                  boundingHeight := boundingHeight svgNode;
                  children := [ {| transform := (Margin.left, Margin.top);
                                   elements := frame width height ++ content |} ] |} in
        if Nat.eqb (List.length dataArray) 0 || negb (Js.truthy sampleRate)
        then g [placeholder width height message]
        else
          let data := binData dataArray sampleRate in
          let barWidth := width / Js.ofNat (List.length data) in
          g (map (fun d => Rect (barOf width height barWidth d)) data)
  end.

(** The two guards of [drawChart], named for the statements below. *)
Definition degenerate (svgNode : SvgElement) : bool :=
  (plotWidth (boundingWidth svgNode) <=? 0) || (plotHeight (boundingHeight svgNode) <=? 0).

Definition noData (dataArray : list byte) (sampleRate : float) : bool :=
  Nat.eqb (List.length dataArray) 0 || negb (Js.truthy sampleRate).

(** A [drawChart] call made by the capture: recorded, and applied to the
    container. *)
Definition draw (dataArray : list byte) (sampleRate : float)
    (message : option string) (w : World) : World :=
  let w := call (DrawChart {| magnitudes := dataArray; sampleRate := sampleRate;
                              diagnosticMessage := message |}) w in
  {| audioContext := audioContext w;
     container := drawChart dataArray sampleRate message (container w);
     pending := pending w; promise := promise w; calls := calls w |}.

(** The body of the effect up to the first [await] of [processAudio].
    [contextAvailable] tells whether the host lets the context be built. *)
Definition mount (audioBlob : bool) (contextAvailable : bool)
    (svg : option SvgElement) : World :=
  let w := {| audioContext := None; container := svg; pending := Idle;
              promise := Unsettled; calls := [] |} in
  match audioBlob, svg with
  | true, Some _ =>
      if contextAvailable then
        setPending AwaitArrayBuffer
          (call BlobArrayBuffer
             {| audioContext := Some Running; container := svg; pending := Idle;
                promise := Unsettled; calls := [NewAudioContext] |})
      else
        (* the constructor throws: processAudio().catch(console.error) *)
        call ConsoleError (settle Rejected (call NewAudioContext w))
  | _, _ => w
  end.

(** The [catch] block around [decodeAudioData]. *)
Definition onDecodeError (w : World) : World :=
  let w := call ConsoleError w in
  let w := draw [] 0 (Some decodeErrorMessage) w in
  let w := close w in
  setPending Idle (settle Fulfilled w).

(** [processAudio] from a decoded buffer to its end. *)
Definition afterDecode (audioBuffer : AudioBuffer.t) (w : World) : World :=
  let w := call CreateBufferSource w in
  let w := call (CreateAnalyser 2048) w in
  let w := call Connect w in
  let w := call (SourceStart 0 (Js.min 0.1 (AudioBuffer.duration audioBuffer)) 5) w in
  let w := call (SetTimeout 100) w in
  setPending (AwaitTimer audioBuffer) (settle Fulfilled w).

Definition someNonZero (dataArray : list byte) : bool :=
  existsb (fun d => (0 <? Byte.to_N d)%N) dataArray.

(** The callback handed to [setTimeout]; [frequencyData] is what the
    analyser would write into [dataArray]. *)
Definition timerCallback (audioBuffer : AudioBuffer.t)
    (frequencyData : list byte) (w : World) : World :=
  match audioContext w with
  | None | Some Closed => w
  | Some _ =>
      let w := call GetByteFrequencyData w in
      let w := call SourceStop w in
      let w :=
        if someNonZero frequencyData
        then draw frequencyData (AudioBuffer.sampleRate audioBuffer) None w
        else draw [] 0 (Some silentMessage) (call ConsoleWarn w) in
      close w
  end.

(** The function the effect returns. *)
Definition cleanup (w : World) : World :=
  match audioContext w with
  | None | Some Closed => w
  | Some _ => close w
  end.

(** One delivery by the host.  A continuation runs only when
    [processAudio] is suspended on it. *)
Definition step (w : World) (e : Event) : World :=
  match e, pending w with
  | ArrayBufferSettled true, AwaitArrayBuffer =>
      setPending AwaitDecode (call DecodeAudioData w)
  | ArrayBufferSettled false, AwaitArrayBuffer =>
      setPending Idle (call ConsoleError (settle Rejected w))
  | DecodeSettled None, AwaitDecode => onDecodeError w
  | DecodeSettled (Some audioBuffer), AwaitDecode => afterDecode audioBuffer w
  | TimerFired frequencyData, AwaitTimer audioBuffer =>
      setPending Idle (timerCallback audioBuffer frequencyData w)
  | Cleanup, _ => cleanup w
  | _, _ => w
  end.

Definition run (w : World) (events : list Event) : World :=
  fold_left step events w.

(** ** Facts about binary64 comparison and division *)

Lemma Prim2SF_zero : Prim2SF 0 = S754_zero false.
Proof. reflexivity. Qed.

(** A number above zero is a positive finite number or [+Infinity]. *)
Lemma positive_cases (a : float) :
  (0 <? a) = true ->
  (exists m e, Prim2SF a = S754_finite false m e) \/ Prim2SF a = S754_infinity false.
Proof.
  rewrite ltb_spec, Prim2SF_zero. unfold SFltb.
  destruct (Prim2SF a) as [s | s | | s m e]; simpl; try discriminate.
  - destruct s; [discriminate | auto].
  - destruct s; [discriminate | eauto].
Qed.

(** [a <= 0] excludes [a > 0]. *)
Lemma leb_zero_not_gtb (a : float) :
  (a <=? 0) = true -> Js.gtb a 0 = false.
Proof.
  unfold Js.gtb. rewrite leb_spec, ltb_spec, Prim2SF_zero.
  unfold SFleb, SFltb.
  destruct (Prim2SF a) as [s | s | | s m e]; simpl; try reflexivity;
    destruct s; simpl; congruence.
Qed.

(** A number above zero is not at most zero. *)
Lemma positive_not_leb_zero (a : float) : (0 <? a) = true -> (a <=? 0) = false.
Proof.
  intros H. rewrite leb_spec, Prim2SF_zero. unfold SFleb.
  destruct (positive_cases a H) as [(m & e & ->) | ->]; reflexivity.
Qed.

(** A number above zero is truthy. *)
Lemma positive_truthy (a : float) : (0 <? a) = true -> Js.truthy a = true.
Proof.
  intros H. unfold Js.truthy, is_zero, is_nan, zero.
  rewrite !eqb_spec, Prim2SF_zero. unfold SFeqb.
  destruct (positive_cases a H) as [(m & e & ->) | ->]; simpl.
  - rewrite Z.compare_refl, Pos.compare_cont_refl. reflexivity.
  - reflexivity.
Qed.

(** Dividing a number above zero by zero gives [+Infinity]. *)
Lemma div_positive_by_zero (a : float) : (0 <? a) = true -> a / 0 = infinity.
Proof.
  intros H. apply Prim2SF_inj. rewrite div_spec, Prim2SF_zero.
  destruct (positive_cases a H) as [(m & e & ->) | ->]; reflexivity.
Qed.

(** ** The bins *)

Lemma mapBins_In (sampleRate : float) (len : nat) (dataArray : list byte) :
  forall (start : nat) (b : Datum.t),
    In b (mapBins sampleRate len start dataArray) <->
    exists i d, nth_error dataArray i = Some d /\
      b = {| Datum.frequency := (Js.ofNat (start + i) * sampleRate) / (2 * Js.ofNat len);
             Datum.amplitude := d |}.
Proof.
  induction dataArray as [| d0 rest IH]; intros start b; simpl.
  - split; [tauto |]. intros (i & d & Hi & _). destruct i; discriminate.
  - rewrite IH. split.
    + intros [<- | (i & d & Hi & ->)].
      * exists 0%nat, d0. rewrite Nat.add_0_r. auto.
      * exists (S i), d. rewrite Nat.add_succ_r. auto.
    + intros ([| i] & d & Hi & ->); simpl in Hi.
      * left. injection Hi as ->. rewrite Nat.add_0_r. reflexivity.
      * right. exists i, d. rewrite Nat.add_succ_r. auto.
Qed.

Lemma mapBins_nth (sampleRate : float) (len : nat) (dataArray : list byte) :
  forall (start i : nat) (d : byte),
    nth_error dataArray i = Some d ->
    nth_error (mapBins sampleRate len start dataArray) i =
    Some {| Datum.frequency := (Js.ofNat (start + i) * sampleRate) / (2 * Js.ofNat len);
            Datum.amplitude := d |}.
Proof.
  induction dataArray as [| d0 rest IH]; intros start [| i] d Hi; simpl in *;
    try discriminate.
  - injection Hi as ->. rewrite Nat.add_0_r. reflexivity.
  - rewrite (IH (S start) i d Hi), Nat.add_succ_r. reflexivity.
Qed.

Lemma binData_In (dataArray : list byte) (sampleRate : float) (b : Datum.t) :
  In b (binData dataArray sampleRate) <->
  exists i d, nth_error dataArray i = Some d /\
    b = {| Datum.frequency :=
             (Js.ofNat i * sampleRate) / (2 * Js.ofNat (List.length dataArray));
           Datum.amplitude := d |} /\
    inDisplayRange b = true.
Proof.
  unfold binData. rewrite filter_In, mapBins_In. simpl. split.
  - intros ((i & d & Hi & Hb) & Hr). eauto.
  - intros (i & d & Hi & Hb & Hr). eauto.
Qed.

Lemma inDisplayRange_bounds (b : Datum.t) :
  inDisplayRange b = true <->
  (20 <=? Datum.frequency b) = true /\ (Datum.frequency b <=? 20000) = true.
Proof. unfold inDisplayRange, Js.geb. apply andb_true_iff. Qed.

(** ** What [drawChart] draws *)

Lemma bars_of_rects (f : Datum.t -> Bar) (data : list Datum.t) :
  flat_map barOfElement (map (fun d => Rect (f d)) data) = map f data.
Proof. induction data as [| d rest IH]; simpl; [| rewrite IH]; reflexivity. Qed.

Lemma barsOf_drawChart (dataArray : list byte) (sampleRate : float)
    (message : option string) (svgNode : SvgElement) :
  barsOf (drawChart dataArray sampleRate message (Some svgNode)) =
  if degenerate svgNode then []
  else if noData dataArray sampleRate then []
  else
    let width := plotWidth (boundingWidth svgNode) in
    let height := plotHeight (boundingHeight svgNode) in
    let data := binData dataArray sampleRate in
    map (barOf width height (width / Js.ofNat (List.length data))) data.
Proof.
  unfold drawChart, degenerate, noData.
  destruct (_ || _); [reflexivity |].
  destruct (_ || _); [reflexivity |].
  cbn [barsOf children flat_map elements].
  rewrite flat_map_app, app_nil_r. cbn [frame flat_map barOfElement app].
  apply bars_of_rects.
Qed.

Lemma drawChart_bounds (dataArray : list byte) (sampleRate : float)
    (message : option string) (svgNode : SvgElement) :
  exists kids,
    drawChart dataArray sampleRate message (Some svgNode) =
    Some {| boundingWidth := boundingWidth svgNode;
            boundingHeight := boundingHeight svgNode;
            children := kids |}.
Proof.
  unfold drawChart.
  destruct (_ || _); [eauto |].
  destruct (_ || _); eauto.
Qed.

Lemma nonempty_positive_has_data (dataArray : list byte) (sampleRate : float) :
  dataArray <> [] -> (0 <? sampleRate) = true -> noData dataArray sampleRate = false.
Proof.
  intros Hne Hpos. unfold noData. rewrite (positive_truthy _ Hpos).
  destruct dataArray; [congruence | reflexivity].
Qed.

(** ** Properties of the renderer *)

(** The rule [fill] applies to a bin: the first entry of [eqSettings] near
    the bin's frequency decides. *)
Lemma fill_of_first_near (d : Datum.t) :
  let distance (q : EQSetting.t) :=
    abs (log10 (EQSetting.frequency q) - log10 (Datum.frequency d)) in
  (forall pre p post,
      eqSettings = pre ++ p :: post ->
      (forall q, In q pre -> (distance q <? 0.1) = false) ->
      (distance p <? 0.1) = true ->
      closestEq (Datum.frequency d) = Some p /\
      (Js.gtb (EQSetting.gain p) 0 = true -> fill d = boostColor) /\
      ((EQSetting.gain p <=? 0) = true -> fill d = cutColor)) /\
  ((forall q, In q eqSettings -> (distance q <? 0.1) = false) ->
   closestEq (Datum.frequency d) = None /\ fill d = neutralColor).
Proof.
  intros distance. split.
  - intros pre p post Heq Hpre Hp.
    change (near (Datum.frequency d) p = true) in Hp.
    assert (Hfind : closestEq (Datum.frequency d) = Some p).
    { unfold closestEq. rewrite Heq. clear Heq.
      induction pre as [| q pre IH]; cbn [app find].
      - rewrite Hp. reflexivity.
      - pose proof (Hpre q (or_introl eq_refl)) as Hq.
        change (near (Datum.frequency d) q = false) in Hq. rewrite Hq.
        apply IH. intros q' Hq'. apply Hpre. right. exact Hq'. }
    unfold fill. rewrite Hfind. repeat split.
    + intros ->. reflexivity.
    + intros Hle. rewrite (leb_zero_not_gtb _ Hle). reflexivity.
  - intros Hnone.
    assert (Hfind : closestEq (Datum.frequency d) = None).
    { unfold closestEq. induction eqSettings as [| q l IH]; cbn [find]; [reflexivity |].
      pose proof (Hnone q (or_introl eq_refl)) as Hq.
      change (near (Datum.frequency d) q = false) in Hq. rewrite Hq.
      apply IH. intros q' Hq'. apply Hnone. right. exact Hq'. }
    unfold fill. rewrite Hfind. auto.
Qed.

(** The bars are drawn in the order of the kept bins: the bar at an index is
    the bar of the bin at that index. *)
Lemma bar_at_index (dataArray : list byte) (sampleRate : float)
    (message : option string) (svgNode : SvgElement) (i : nat) (b : Bar) :
  nth_error (barsOf (drawChart dataArray sampleRate message (Some svgNode))) i = Some b ->
  exists d,
    nth_error (binData dataArray sampleRate) i = Some d /\
    b = barOf (plotWidth (boundingWidth svgNode)) (plotHeight (boundingHeight svgNode))
          (plotWidth (boundingWidth svgNode)
           / Js.ofNat (List.length (binData dataArray sampleRate))) d.
Proof.
  rewrite barsOf_drawChart.
  destruct (degenerate svgNode); [destruct i; discriminate |].
  destruct (noData dataArray sampleRate); [destruct i; discriminate |].
  cbv zeta. rewrite nth_error_map.
  destruct (nth_error (binData dataArray sampleRate) i) as [d |]; [| discriminate].
  intros [= <-]. exists d. auto.
Qed.

(** C1. Every bar drawn is the bar of a kept bin, and its colour is decided
    by the first entry of [eqSettings] within 0.1 of the bin's frequency on
    the log10 axis: boost colour when that entry's gain is above zero, cut
    colour when it is at most zero, and the neutral colour when no entry is
    that near.  Entries after the first near one do not matter.  When
    anything is drawn there is one bar for each kept bin. *)
Theorem fill_first_match (dataArray : list byte) (sampleRate : float)
    (message : option string) (svgNode : SvgElement) :
  let bars := barsOf (drawChart dataArray sampleRate message (Some svgNode)) in
  let data := binData dataArray sampleRate in
  (degenerate svgNode = false -> noData dataArray sampleRate = false ->
     List.length bars = List.length data) /\
  (forall i b,
     nth_error bars i = Some b ->
     exists d,
       nth_error data i = Some d /\
       let distance (q : EQSetting.t) :=
         abs (log10 (EQSetting.frequency q) - log10 (Datum.frequency d)) in
       (forall pre p post,
           eqSettings = pre ++ p :: post ->
           (forall q, In q pre -> (distance q <? 0.1) = false) ->
           (distance p <? 0.1) = true ->
           (Js.gtb (EQSetting.gain p) 0 = true -> barFill b = boostColor) /\
           ((EQSetting.gain p <=? 0) = true -> barFill b = cutColor)) /\
       ((forall q, In q eqSettings -> (distance q <? 0.1) = false) ->
        barFill b = neutralColor)).
Proof.
  intros bars data. split.
  - intros Hgeo Hdata. unfold bars. rewrite barsOf_drawChart, Hgeo, Hdata.
    cbv zeta. apply length_map.
  - intros i b Hb. destruct (bar_at_index _ _ _ _ _ _ Hb) as (d & Hd & ->).
    exists d. split; [exact Hd |]. cbv zeta. cbn [barOf barFill].
    destruct (fill_of_first_near d) as (Hnear & Hnone). split.
    + intros pre p post Heq Hpre Hp.
      destruct (Hnear pre p post Heq Hpre Hp) as (_ & Hboost & Hcut). auto.
    + intros Hfar. exact (proj2 (Hnone Hfar)).
Qed.

(** C2. For a non-empty [dataArray] of length N and a sample rate R above
    zero, index i yields the bin of frequency i * R / (2 * N); the bins kept
    are exactly those whose frequency lies in [20, 20000]; the first kept
    bin is at 20 Hz or above and the last at 20000 Hz or below; and these
    are the bins drawn. *)
Theorem binData_frequencies (dataArray : list byte) (sampleRate : float) :
  dataArray <> [] ->
  (0 <? sampleRate) = true ->
  let N := List.length dataArray in
  let freq (i : nat) := (Js.ofNat i * sampleRate) / (2 * Js.ofNat N) in
  (forall i d, nth_error dataArray i = Some d ->
     nth_error (mapBins sampleRate N 0 dataArray) i =
     Some {| Datum.frequency := freq i; Datum.amplitude := d |}) /\
  (forall b, In b (binData dataArray sampleRate) <->
     exists i d, nth_error dataArray i = Some d /\
       b = {| Datum.frequency := freq i; Datum.amplitude := d |} /\
       (20 <=? freq i) = true /\ (freq i <=? 20000) = true) /\
  (forall b rest, binData dataArray sampleRate = b :: rest ->
     (20 <=? Datum.frequency b) = true) /\
  (forall front b, binData dataArray sampleRate = front ++ [b] ->
     (Datum.frequency b <=? 20000) = true) /\
  (forall message svgNode, degenerate svgNode = false ->
     let width := plotWidth (boundingWidth svgNode) in
     let height := plotHeight (boundingHeight svgNode) in
     barsOf (drawChart dataArray sampleRate message (Some svgNode)) =
     map (barOf width height
            (width / Js.ofNat (List.length (binData dataArray sampleRate))))
         (binData dataArray sampleRate)).
Proof.
  intros Hne Hpos N freq. repeat split.
  - intros i d Hi. apply (mapBins_nth sampleRate N dataArray 0 i d Hi).
  - intros Hin. apply binData_In in Hin. destruct Hin as (i & d & Hi & Hb & Hr).
    apply inDisplayRange_bounds in Hr. rewrite Hb in Hr. simpl in Hr.
    exists i, d. tauto.
  - intros (i & d & Hi & Hb & Hlo & Hhi). apply binData_In.
    exists i, d. repeat split; auto.
    apply inDisplayRange_bounds. rewrite Hb. simpl. auto.
  - intros b rest Heq.
    assert (Hin : In b (binData dataArray sampleRate)) by (rewrite Heq; left; reflexivity).
    apply filter_In in Hin. apply (inDisplayRange_bounds b), Hin.
  - intros front b Heq.
    assert (Hin : In b (binData dataArray sampleRate))
      by (rewrite Heq; apply in_or_app; right; left; reflexivity).
    apply filter_In in Hin. apply (inDisplayRange_bounds b), Hin.
  - intros message svgNode Hgeo width height.
    rewrite barsOf_drawChart, Hgeo, (nonempty_positive_has_data _ _ Hne Hpos).
    reflexivity.
Qed.

(** C5, as the code has it.  Every bar drawn has for width the quotient
    plotWidth / numberOfFilteredBins when that quotient is above zero, and 1
    otherwise; so every bar's width is above zero.  (It may be below 1.) *)
Theorem bar_width_positive (dataArray : list byte) (sampleRate : float)
    (message : option string) (svgNode : SvgElement) (b : Bar) :
  In b (barsOf (drawChart dataArray sampleRate message (Some svgNode))) ->
  let quotient := plotWidth (boundingWidth svgNode)
                  / Js.ofNat (List.length (binData dataArray sampleRate)) in
  barWidthAttr b = (if 0 <? quotient then quotient else 1) /\
  (0 <? barWidthAttr b) = true.
Proof.
  rewrite barsOf_drawChart.
  destruct (degenerate svgNode); [intros [] |].
  destruct (noData dataArray sampleRate); [intros [] |].
  cbv zeta. intros Hin. apply in_map_iff in Hin. destruct Hin as (d & <- & _).
  unfold barOf, barWidthOf, Js.gtb. cbn [barWidthAttr].
  split; [reflexivity |].
  destruct (0 <? plotWidth _ / _) eqn:Hq; [exact Hq | reflexivity].
Qed.

(** C6. When the plot width or the plot height is at most zero, [drawChart]
    leaves the container empty: no group, no axis, no bar.  It returns
    normally, before any scale or quotient is computed. *)
Theorem degenerate_geometry_draws_nothing (dataArray : list byte)
    (sampleRate : float) (message : option string) (svgNode : SvgElement) :
  (plotWidth (boundingWidth svgNode) <=? 0) = true \/
  (plotHeight (boundingHeight svgNode) <=? 0) = true ->
  drawChart dataArray sampleRate message (Some svgNode) =
    Some {| boundingWidth := boundingWidth svgNode;
            boundingHeight := boundingHeight svgNode;
            children := [] |} /\
  barsOf (drawChart dataArray sampleRate message (Some svgNode)) = [].
Proof.
  intros Hgeo.
  assert (Hd : (plotWidth (boundingWidth svgNode) <=? 0)
               || (plotHeight (boundingHeight svgNode) <=? 0) = true)
    by (apply orb_true_iff; exact Hgeo).
  assert (Hdraw : drawChart dataArray sampleRate message (Some svgNode) =
    Some {| boundingWidth := boundingWidth svgNode;
            boundingHeight := boundingHeight svgNode;
            children := [] |})
    by (unfold drawChart; rewrite Hd; reflexivity).
  split; [exact Hdraw | rewrite Hdraw; reflexivity].
Qed.

(** C9. Drawing is a function of its inputs: what was in the container
    before does not show in the result, and drawing a second time with the
    same arguments changes nothing. *)
Theorem drawChart_idempotent (dataArray : list byte) (sampleRate : float)
    (message : option string) :
  (forall w h kids kids',
      drawChart dataArray sampleRate message
        (Some {| boundingWidth := w; boundingHeight := h; children := kids |}) =
      drawChart dataArray sampleRate message
        (Some {| boundingWidth := w; boundingHeight := h; children := kids' |})) /\
  (forall svg,
      drawChart dataArray sampleRate message
        (drawChart dataArray sampleRate message svg) =
      drawChart dataArray sampleRate message svg).
Proof.
  assert (Hfresh : forall w h kids kids',
      drawChart dataArray sampleRate message
        (Some {| boundingWidth := w; boundingHeight := h; children := kids |}) =
      drawChart dataArray sampleRate message
        (Some {| boundingWidth := w; boundingHeight := h; children := kids' |}))
    by reflexivity.
  split; [exact Hfresh |].
  intros [[w h kids0] |]; [| reflexivity].
  destruct (drawChart_bounds dataArray sampleRate message
              {| boundingWidth := w; boundingHeight := h; children := kids0 |})
    as (kids & Hd).
  cbn [boundingWidth boundingHeight] in Hd.
  transitivity (drawChart dataArray sampleRate message
    (Some {| boundingWidth := w; boundingHeight := h; children := kids |})).
  - rewrite Hd. reflexivity.
  - apply Hfresh.
Qed.

(** C10. When the data is non-empty, the sample rate above zero and every
    bin's frequency outside [20, 20000], [drawChart] draws no bar and
    returns the frame alone; the quotient plotWidth / 0 it computes on the
    way is [Infinity], not a failure. *)
Theorem no_bin_in_range_draws_no_bar (dataArray : list byte)
    (sampleRate : float) (message : option string) (svgNode : SvgElement) :
  dataArray <> [] ->
  (0 <? sampleRate) = true ->
  (forall i, (i < List.length dataArray)%nat ->
     let f := (Js.ofNat i * sampleRate) / (2 * Js.ofNat (List.length dataArray)) in
     Js.geb f 20 && (f <=? 20000) = false) ->
  let width := plotWidth (boundingWidth svgNode) in
  let height := plotHeight (boundingHeight svgNode) in
  barsOf (drawChart dataArray sampleRate message (Some svgNode)) = [] /\
  ((0 <? width) = true -> (0 <? height) = true ->
     drawChart dataArray sampleRate message (Some svgNode) =
       Some {| boundingWidth := boundingWidth svgNode;
               boundingHeight := boundingHeight svgNode;
               children := [ {| transform := (Margin.left, Margin.top);
                                elements := frame width height |} ] |} /\
     width / Js.ofNat (List.length (binData dataArray sampleRate)) = infinity).
Proof.
  intros Hne Hpos Hout width height.
  assert (Hempty : binData dataArray sampleRate = []).
  { destruct (binData dataArray sampleRate) as [| b rest] eqn:Hb; [reflexivity |].
    assert (Hin : In b (binData dataArray sampleRate)) by (rewrite Hb; left; reflexivity).
    apply binData_In in Hin. destruct Hin as (i & d & Hi & -> & Hr).
    assert (Hlt : (i < List.length dataArray)%nat)
      by (apply nth_error_Some; congruence).
    specialize (Hout i Hlt). cbv zeta in Hout.
    unfold inDisplayRange in Hr. simpl in Hr. congruence. }
  split.
  - rewrite barsOf_drawChart.
    destruct (degenerate svgNode); [reflexivity |].
    destruct (noData dataArray sampleRate); [reflexivity |].
    cbv zeta. rewrite Hempty. reflexivity.
  - intros Hw Hh.
    assert (Hgeo : degenerate svgNode = false).
    { unfold degenerate. fold width height.
      rewrite (positive_not_leb_zero _ Hw), (positive_not_leb_zero _ Hh). reflexivity. }
    split.
    + unfold drawChart. fold (degenerate svgNode). rewrite Hgeo.
      fold (noData dataArray sampleRate).
      rewrite (nonempty_positive_has_data _ _ Hne Hpos), Hempty.
      cbn [map]. rewrite app_nil_r. reflexivity.
    + rewrite Hempty. apply div_positive_by_zero. exact Hw.
Qed.

(** ** Properties of the capture *)

Lemma to_N_zero (d : byte) : Byte.to_N d = 0%N -> d = x00.
Proof.
  intros H. pose proof (Byte.of_to_N d) as Hd. rewrite H in Hd.
  simpl in Hd. congruence.
Qed.

Lemma someNonZero_false (dataArray : list byte) :
  (forall d, In d dataArray -> d = x00) -> someNonZero dataArray = false.
Proof.
  intros Hall. unfold someNonZero.
  induction dataArray as [| d rest IH]; simpl; [reflexivity |].
  rewrite (Hall d (or_introl eq_refl)). simpl. apply IH.
  intros d' Hd'. apply Hall. right. exact Hd'.
Qed.

Lemma someNonZero_true (dataArray : list byte) :
  (exists d, In d dataArray /\ d <> x00) -> someNonZero dataArray = true.
Proof.
  intros (d & Hin & Hd). unfold someNonZero. apply existsb_exists.
  exists d. split; [exact Hin |]. apply N.ltb_lt.
  destruct (N.eq_dec (Byte.to_N d) 0) as [Hz | Hz]; [| lia].
  elim Hd. apply to_N_zero. exact Hz.
Qed.

Lemma snapshots_of_calls (w w' : World) (cs : list Call) :
  calls w' = calls w ++ cs ->
  snapshots w' = snapshots w ++ flat_map snapshotOfCall cs.
Proof. unfold snapshots. intros ->. apply flat_map_app. Qed.

Ltac world_fields :=
  cbn [setPending settle call close draw container promise pending calls audioContext].

Ltac snapshot_step :=
  erewrite snapshots_of_calls;
  [| world_fields; rewrite <- ?app_assoc; reflexivity ];
  reflexivity.

(** C3. When [decodeAudioData] rejects, the capture hands the renderer the
    snapshot with no magnitudes, sample rate 0 and the message
    "Error decoding audio file.", and the promise of [processAudio] is
    fulfilled, not rejected. *)
Theorem decode_failure_yields_placeholder (w : World) :
  pending w = AwaitDecode ->
  let w' := step w (DecodeSettled None) in
  snapshots w' =
    snapshots w ++ [ {| magnitudes := []; sampleRate := 0;
                        diagnosticMessage := Some "Error decoding audio file." |} ] /\
  container w' = drawChart [] 0 (Some "Error decoding audio file.") (container w) /\
  promise w' = Fulfilled /\
  pending w' = Idle.
Proof.
  intros Hp. unfold step. rewrite Hp. unfold onDecodeError, close, draw.
  world_fields.
  destruct (audioContext w); split; try snapshot_step; repeat split.
Qed.

(** C4. When the timer fires on a live context: if every magnitude read is
    zero, the renderer is handed no magnitudes, sample rate 0 and the
    message "Could not visualize audio: sample may be silent."; if some
    magnitude is not zero, it is handed the magnitudes read and the decoded
    buffer's sample rate, with no message. *)
Theorem timer_snapshot (w : World) (audioBuffer : AudioBuffer.t)
    (frequencyData : list byte) :
  pending w = AwaitTimer audioBuffer ->
  audioContext w = Some Running \/ audioContext w = Some Suspended ->
  let w' := step w (TimerFired frequencyData) in
  ((forall d, In d frequencyData -> d = x00) ->
     snapshots w' =
       snapshots w ++
       [ {| magnitudes := []; sampleRate := 0;
            diagnosticMessage :=
              Some "Could not visualize audio: sample may be silent." |} ]) /\
  ((exists d, In d frequencyData /\ d <> x00) ->
     snapshots w' =
       snapshots w ++
       [ {| magnitudes := frequencyData;
            sampleRate := AudioBuffer.sampleRate audioBuffer;
            diagnosticMessage := None |} ]).
Proof.
  intros Hp Hlive. unfold step. rewrite Hp.
  assert (Hcb : timerCallback audioBuffer frequencyData w =
    close (if someNonZero frequencyData
           then draw frequencyData (AudioBuffer.sampleRate audioBuffer) None
                  (call SourceStop (call GetByteFrequencyData w))
           else draw [] 0 (Some silentMessage)
                  (call ConsoleWarn (call SourceStop (call GetByteFrequencyData w))))).
  { unfold timerCallback. destruct Hlive as [-> | ->]; reflexivity. }
  rewrite Hcb. split.
  - intros Hzero. rewrite (someNonZero_false _ Hzero).
    unfold close, draw. world_fields.
    destruct Hlive as [-> | ->]; snapshot_step.
  - intros Hsome. rewrite (someNonZero_true _ Hsome).
    unfold close, draw. world_fields.
    destruct Hlive as [-> | ->]; snapshot_step.
Qed.

(** C8. When the timer callback runs with the context variable null or the
    context closed, it does nothing: no host call, no drawing, no change of
    the context. *)
Theorem timer_after_close_does_nothing (w : World) (audioBuffer : AudioBuffer.t)
    (frequencyData : list byte) :
  audioContext w = None \/ audioContext w = Some Closed ->
  timerCallback audioBuffer frequencyData w = w /\
  (pending w = AwaitTimer audioBuffer ->
   let w' := step w (TimerFired frequencyData) in
   calls w' = calls w /\ container w' = container w /\
   audioContext w' = audioContext w /\ promise w' = promise w).
Proof.
  intros Hctx.
  assert (Hcb : timerCallback audioBuffer frequencyData w = w)
    by (unfold timerCallback; destruct Hctx as [-> | ->]; reflexivity).
  split; [exact Hcb |].
  intros Hp. unfold step. rewrite Hp, Hcb. simpl. auto.
Qed.

(** ** Releasing the context *)

Lemma closeCount_calls (w w' : World) (cs : list Call) :
  calls w' = calls w ++ cs ->
  closeCount w' = (closeCount w + List.length (filter isCloseCall cs))%nat.
Proof. unfold closeCount. intros ->. rewrite filter_app. apply length_app. Qed.

Ltac count_closes :=
  erewrite closeCount_calls;
  [| world_fields; rewrite <- ?app_assoc; reflexivity ];
  cbn [app filter isCloseCall List.length].

(** The timer callback and the cleanup look at the context's state before
    they close it: neither closes a closed context, and each leaves the
    context closed once. *)
Lemma cleanup_closedOnce (w : World) : closedOnce w -> closedOnce (cleanup w).
Proof.
  unfold closedOnce, cleanup, isClosed, close.
  destruct (audioContext w) as [[| |] |] eqn:Hctx; rewrite ?Hctx; intros H;
    try exact H; world_fields; count_closes; lia.
Qed.

Lemma timerCallback_closedOnce (w : World) (audioBuffer : AudioBuffer.t)
    (frequencyData : list byte) :
  closedOnce w -> closedOnce (timerCallback audioBuffer frequencyData w).
Proof.
  unfold closedOnce, timerCallback, isClosed, close, draw.
  destruct (audioContext w) as [[| |] |] eqn:Hctx; rewrite ?Hctx; intros H;
    try exact H;
    destruct (someNonZero frequencyData); world_fields; rewrite Hctx;
    world_fields; count_closes; lia.
Qed.

(** Every delivery keeps the count right, except a failed decode that
    arrives when the context is closed already. *)
Lemma step_closedOnce (w : World) (e : Event) :
  closedOnce w ->
  ~ (e = DecodeSettled None /\ pending w = AwaitDecode /\ isClosed w = true) ->
  closedOnce (step w e).
Proof.
  intros Hinv Hnot. unfold step.
  destruct e as [[|] | [audioBuffer |] | frequencyData | ].
  - destruct (pending w); try exact Hinv.
    unfold closedOnce, isClosed in *. world_fields. count_closes.
    rewrite Nat.add_0_r. exact Hinv.
  - destruct (pending w); try exact Hinv.
    unfold closedOnce, isClosed in *. world_fields. count_closes.
    rewrite Nat.add_0_r. exact Hinv.
  - destruct (pending w); try exact Hinv.
    unfold closedOnce, isClosed, afterDecode in *. world_fields. count_closes.
    rewrite Nat.add_0_r. exact Hinv.
  - destruct (pending w) eqn:Hp; try exact Hinv.
    unfold closedOnce, isClosed, onDecodeError, close, draw in *. world_fields.
    destruct (audioContext w) as [[| |] |] eqn:Hctx; world_fields;
      try (count_closes; lia).
    elim Hnot. auto.
  - destruct (pending w); try exact Hinv.
    pose proof (timerCallback_closedOnce w audioBuffer frequencyData Hinv) as H.
    unfold closedOnce, isClosed in *. world_fields. exact H.
  - destruct (pending w); apply cleanup_closedOnce; exact Hinv.
Qed.

Lemma mount_closedOnce (audioBlob contextAvailable : bool) (svg : option SvgElement) :
  closedOnce (mount audioBlob contextAvailable svg).
Proof.
  destruct audioBlob, contextAvailable, svg; reflexivity.
Qed.

(** Without a failed decode the context is never closed twice. *)
Lemma run_closedOnce (events : list Event) :
  forall w,
    closedOnce w ->
    (forall e, In e events -> e <> DecodeSettled None) ->
    closedOnce (run w events).
Proof.
  induction events as [| e rest IH]; intros w Hinv Hok; simpl; [exact Hinv |].
  apply IH.
  - apply step_closedOnce; [exact Hinv |].
    intros (He & _). exact (Hok e (or_introl eq_refl) He).
  - intros e' He'. apply Hok. right. exact He'.
Qed.

(** The success path, and disposal before the timer: closed once. *)
Lemma close_once_on_success (svgNode : SvgElement) (audioBuffer : AudioBuffer.t)
    (frequencyData : list byte) :
  closeCount (run (mount true true (Some svgNode))
                [ArrayBufferSettled true; DecodeSettled (Some audioBuffer);
                 TimerFired frequencyData; Cleanup]) = 1%nat /\
  closeCount (run (mount true true (Some svgNode))
                [ArrayBufferSettled true; DecodeSettled (Some audioBuffer);
                 Cleanup; TimerFired frequencyData]) = 1%nat.
Proof.
  split.
  - pose proof (run_closedOnce
      [ArrayBufferSettled true; DecodeSettled (Some audioBuffer);
       TimerFired frequencyData; Cleanup] _
      (mount_closedOnce true true (Some svgNode))) as H.
    unfold closedOnce in H. rewrite H.
    + cbn [run fold_left step mount pending setPending call afterDecode settle].
      unfold timerCallback. world_fields.
      destruct (someNonZero frequencyData); reflexivity.
    + intros e [<- | [<- | [<- | [<- | []]]]]; discriminate.
  - pose proof (run_closedOnce
      [ArrayBufferSettled true; DecodeSettled (Some audioBuffer);
       Cleanup; TimerFired frequencyData] _
      (mount_closedOnce true true (Some svgNode))) as H.
    unfold closedOnce in H. rewrite H.
    + reflexivity.
    + intros e [<- | [<- | [<- | [<- | []]]]]; discriminate.
Qed.

(** A failed decode with no disposal before it: closed once, and a later
    cleanup does not close again. *)
Lemma close_once_on_decode_failure (svgNode : SvgElement) :
  closeCount (run (mount true true (Some svgNode))
                [ArrayBufferSettled true; DecodeSettled None; Cleanup]) = 1%nat.
Proof. reflexivity. Qed.

(** C7. The context is not closed exactly once on every path: when the
    cleanup runs while [decodeAudioData] is pending and the decode then
    fails, the [catch] block calls [close()] on the context the cleanup has
    closed already, a second call. *)
Theorem close_twice_on_decode_failure_after_cleanup (svgNode : SvgElement) :
  let w := run (mount true true (Some svgNode))
             [ArrayBufferSettled true; Cleanup; DecodeSettled None] in
  closeCount w = 2%nat /\
  filter isCloseCall (calls w) = [ContextClose; ContextClose] /\
  audioContext w = Some Closed.
Proof. repeat split. Qed.

(** ** More facts about binary64 numbers *)

Lemma SFcompare_swap (a b : spec_float) :
  SFcompare b a = option_map CompOpp (SFcompare a b).
Proof.
  destruct a as [sa | sa | | sa ma ea], b as [sb | sb | | sb mb eb];
    try reflexivity; try (destruct sa; reflexivity); try (destruct sb; reflexivity);
    try (destruct sa, sb; reflexivity).
  simpl. destruct sa, sb; try reflexivity.
  - rewrite (Z.compare_antisym ea eb).
    destruct (ea ?= eb)%Z; simpl; try reflexivity.
    rewrite (Pos.compare_cont_antisym ma mb Eq). reflexivity.
  - rewrite (Z.compare_antisym ea eb).
    destruct (ea ?= eb)%Z; simpl; try reflexivity.
    rewrite <- (CompOpp_involutive (Pos.compare_cont Eq mb ma)).
    rewrite (Pos.compare_cont_antisym mb ma Eq). reflexivity.
Qed.

Lemma SFcompare_refl (a : spec_float) : a <> S754_nan -> SFcompare a a = Some Eq.
Proof.
  destruct a as [s | s | | s m e]; intros Hn; try congruence;
    try (destruct s; reflexivity).
  simpl. rewrite Z.compare_refl, Pos.compare_cont_refl. destruct s; reflexivity.
Qed.

Lemma not_nan_spec (a : float) : is_nan a = false -> Prim2SF a <> S754_nan.
Proof.
  unfold is_nan. rewrite eqb_spec. unfold SFeqb. intros H Hn. rewrite Hn in H.
  discriminate.
Qed.

(** The product of zero with any number, divided by any number, is a zero
    or [NaN]: it is not 20 or above. *)
Lemma zero_quotient_below_20 (r n : float) : (20 <=? (0 * r) / n) = false.
Proof.
  rewrite leb_spec, div_spec, mul_spec, Prim2SF_zero.
  assert (H20 : exists m e, Prim2SF 20 = S754_finite false m e)
    by (eexists; eexists; vm_compute; reflexivity).
  destruct H20 as (m & e & ->).
  destruct (Prim2SF r) as [sr | sr | | sr mr er], (Prim2SF n) as [sn | sn | | sn mn en];
    reflexivity.
Qed.




(** [Math.min] of two numbers, neither [NaN], is at most each of them. *)
Lemma min_le (a b : float) :
  is_nan a = false -> is_nan b = false ->
  (Js.min a b <=? a) = true /\ (Js.min a b <=? b) = true.
Proof.
  intros Ha Hb. unfold Js.min. rewrite Ha, Hb.
  pose proof (not_nan_spec a Ha) as Hna. pose proof (not_nan_spec b Hb) as Hnb.
  assert (Haa : (a <=? a) = true)
    by (rewrite leb_spec; unfold SFleb; rewrite (SFcompare_refl _ Hna); reflexivity).
  assert (Hbb : (b <=? b) = true)
    by (rewrite leb_spec; unfold SFleb; rewrite (SFcompare_refl _ Hnb); reflexivity).
  rewrite (ltb_spec a b), (ltb_spec b a). unfold SFltb.
  rewrite (SFcompare_swap (Prim2SF a) (Prim2SF b)).
  assert (Hab : (a <=? b) = SFleb (Prim2SF a) (Prim2SF b)) by apply leb_spec.
  assert (Hba : (b <=? a) = SFleb (Prim2SF b) (Prim2SF a)) by apply leb_spec.
  unfold SFleb in Hab, Hba.
  rewrite (SFcompare_swap (Prim2SF a) (Prim2SF b)) in Hba.
  destruct (SFcompare (Prim2SF a) (Prim2SF b)) as [[| |] |] eqn:Hc; simpl in *.
  - destruct (get_sign a); split; congruence.
  - split; congruence.
  - split; congruence.
  - exfalso. destruct (Prim2SF a) as [sa | sa | | sa ma ea],
      (Prim2SF b) as [sb | sb | | sb mb eb]; simpl in Hc; congruence.
Qed.

(** ** Further properties of the renderer *)

(** X1. With valid geometry, an empty [dataArray] or a sample rate of 0,
    -0 or [NaN] gives the frame and one centred text, and no bar.  The text
    is the message passed, or "No audio data to display." when no message
    or an empty one is passed. *)
Theorem no_data_placeholder (dataArray : list byte) (sampleRate : float)
    (message : option string) (svgNode : SvgElement) :
  degenerate svgNode = false ->
  dataArray = [] \/ sampleRate = 0 \/ sampleRate = neg_zero \/ sampleRate = nan ->
  let width := plotWidth (boundingWidth svgNode) in
  let height := plotHeight (boundingHeight svgNode) in
  let shown :=
    match message with
    | Some (String c rest) => String c rest
    | _ => "No audio data to display."
    end in
  drawChart dataArray sampleRate message (Some svgNode) =
    Some {| boundingWidth := boundingWidth svgNode;
            boundingHeight := boundingHeight svgNode;
            children :=
              [ {| transform := (50, 20);
                   elements :=
                     frame width height ++
                     [ Text {| textAnchor := "middle"; rotated := false;
                               textX := width / 2; textY := height / 2;
                               textFill := "#e5e7eb"; textContent := shown |} ] |} ] |} /\
  barsOf (drawChart dataArray sampleRate message (Some svgNode)) = [].
Proof.
  intros Hgeo Hno width height shown.
  assert (Hnd : noData dataArray sampleRate = true).
  { unfold noData. destruct Hno as [-> | [-> | [-> | ->]]]; [reflexivity | | |];
      apply orb_true_iff; right; reflexivity. }
  split.
  - unfold drawChart. fold (degenerate svgNode). rewrite Hgeo.
    fold (noData dataArray sampleRate). rewrite Hnd.
    unfold placeholder, placeholderText, shown.
    destruct message as [[| c rest] |]; reflexivity.
  - rewrite barsOf_drawChart, Hgeo, Hnd. reflexivity.
Qed.

Lemma first_bin_out_of_range (sampleRate : float) (len : nat) (d : byte) :
  inDisplayRange {| Datum.frequency := (Js.ofNat 0 * sampleRate) / (2 * Js.ofNat len);
                    Datum.amplitude := d |} = false.
Proof.
  unfold inDisplayRange, Js.geb. cbn [Datum.frequency].
  change (Js.ofNat 0) with 0. rewrite zero_quotient_below_20. reflexivity.
Qed.

Lemma filter_length_bound {A : Type} (f : A -> bool) (l : list A) :
  (List.length (filter f l) <= List.length l)%nat.
Proof.
  induction l as [| a l IH]; simpl; [lia |]. destruct (f a); simpl; lia.
Qed.

(** X2. The bin of index 0 is never kept, whatever the sample rate: every
    kept bin comes from an index of 1 or more, so a non-empty [dataArray]
    gives fewer bars than it has magnitudes. *)
Theorem dc_bin_never_drawn (dataArray : list byte) (sampleRate : float)
    (message : option string) (svgNode : SvgElement) :
  (forall b, In b (binData dataArray sampleRate) ->
     exists i d, (1 <= i)%nat /\ nth_error dataArray i = Some d /\
       b = {| Datum.frequency :=
                (Js.ofNat i * sampleRate) / (2 * Js.ofNat (List.length dataArray));
              Datum.amplitude := d |}) /\
  (List.length (barsOf (drawChart dataArray sampleRate message (Some svgNode)))
   <= List.length dataArray - 1)%nat.
Proof.
  split.
  - intros b Hin. apply binData_In in Hin. destruct Hin as (i & d & Hi & Hb & Hr).
    exists i, d. repeat split; auto.
    destruct i; [| lia]. rewrite Hb, first_bin_out_of_range in Hr. discriminate.
  - assert (Hbins : (List.length (binData dataArray sampleRate)
                     <= List.length dataArray - 1)%nat).
    { unfold binData. destruct dataArray as [| d rest]; [simpl; lia |].
      cbn [mapBins filter]. rewrite first_bin_out_of_range.
      etransitivity; [apply filter_length_bound |].
      assert (Hlen : forall l start len,
                List.length (mapBins sampleRate len start l) = List.length l)
        by (induction l; intros; simpl; auto).
      rewrite Hlen. simpl. lia. }
    rewrite barsOf_drawChart.
    destruct (degenerate svgNode); [simpl; lia |].
    destruct (noData dataArray sampleRate); [simpl; lia |].
    cbv zeta. rewrite length_map. exact Hbins.
Qed.

(** ** Further properties of the capture *)

(** What one run of the effect may still draw: nothing has been drawn while
    [processAudio] is suspended, and at most one drawing after. *)
Definition drawnAtMostOnce (w : World) : Prop :=
  match pending w with
  | Idle => (List.length (snapshots w) <= 1)%nat
  | _ => snapshots w = []
  end.

Lemma cleanup_snapshots (w : World) : snapshots (cleanup w) = snapshots w.
Proof.
  unfold cleanup, close. destruct (audioContext w) as [[| |] |]; try reflexivity;
    (erewrite snapshots_of_calls; [| world_fields; reflexivity]; apply app_nil_r).
Qed.

Lemma cleanup_pending (w : World) : pending (cleanup w) = pending w.
Proof. unfold cleanup, close. destruct (audioContext w) as [[| |] |]; reflexivity. Qed.

Lemma timerCallback_snapshots (w : World) (audioBuffer : AudioBuffer.t)
    (frequencyData : list byte) :
  (List.length (snapshots (timerCallback audioBuffer frequencyData w))
   <= List.length (snapshots w) + 1)%nat.
Proof.
  unfold timerCallback, close, draw.
  destruct (audioContext w) as [[| |] |] eqn:Hctx; try lia;
    destruct (someNonZero frequencyData); world_fields; rewrite Hctx; world_fields;
    (erewrite snapshots_of_calls; [| world_fields; rewrite <- ?app_assoc; reflexivity]);
    rewrite length_app; simpl; lia.
Qed.

Lemma step_drawnAtMostOnce (w : World) (e : Event) :
  drawnAtMostOnce w -> drawnAtMostOnce (step w e).
Proof.
  intros H. unfold step.
  destruct e as [[|] | [audioBuffer |] | frequencyData | ].
  - destruct (pending w) eqn:Hp; try exact H.
    unfold drawnAtMostOnce in *. rewrite Hp in H. world_fields.
    erewrite snapshots_of_calls; [| world_fields; reflexivity]. rewrite H. reflexivity.
  - destruct (pending w) eqn:Hp; try exact H.
    unfold drawnAtMostOnce in *. rewrite Hp in H. world_fields.
    erewrite snapshots_of_calls; [| world_fields; reflexivity]. rewrite H. simpl. lia.
  - destruct (pending w) eqn:Hp; try exact H.
    unfold drawnAtMostOnce, afterDecode in *. rewrite Hp in H. world_fields.
    erewrite snapshots_of_calls; [| world_fields; rewrite <- ?app_assoc; reflexivity].
    rewrite H. reflexivity.
  - destruct (pending w) eqn:Hp; try exact H.
    unfold drawnAtMostOnce, onDecodeError, close, draw in *. rewrite Hp in H.
    world_fields.
    destruct (audioContext w); world_fields;
      (erewrite snapshots_of_calls; [| world_fields; rewrite <- ?app_assoc; reflexivity]);
      rewrite H; simpl; lia.
  - destruct (pending w) eqn:Hp; try exact H.
    unfold drawnAtMostOnce in *. rewrite Hp in H. world_fields.
    change (snapshots (setPending Idle (timerCallback audioBuffer frequencyData w)))
      with (snapshots (timerCallback audioBuffer frequencyData w)).
    pose proof (timerCallback_snapshots w audioBuffer frequencyData) as Hb.
    rewrite H in Hb. simpl in Hb. exact Hb.
  - replace (match pending w with
             | AwaitArrayBuffer | _ => cleanup w end) with (cleanup w)
      by (destruct (pending w); reflexivity).
    unfold drawnAtMostOnce in *.
    rewrite cleanup_pending, cleanup_snapshots. exact H.
Qed.

(** X3. One run of the effect calls [drawChart] at most once, whatever
    the host delivers and in whatever order. *)
Theorem at_most_one_drawing (audioBlob contextAvailable : bool)
    (svg : option SvgElement) (events : list Event) :
  (List.length (snapshots (run (mount audioBlob contextAvailable svg) events)) <= 1)%nat.
Proof.
  assert (Hrun : forall evs w, drawnAtMostOnce w -> drawnAtMostOnce (run w evs)).
  { induction evs as [| e rest IH]; intros w Hw; simpl; [exact Hw |].
    apply IH, step_drawnAtMostOnce, Hw. }
  assert (Hmount : drawnAtMostOnce (mount audioBlob contextAvailable svg))
    by (destruct audioBlob, contextAvailable, svg; unfold drawnAtMostOnce; simpl;
        try reflexivity; lia).
  pose proof (Hrun events _ Hmount) as H. unfold drawnAtMostOnce in H.
  destruct (pending _); first [exact H | rewrite H; simpl; lia].
Qed.

Lemma step_stays_closed (w : World) (e : Event) :
  audioContext w = Some Closed ->
  audioContext (step w e) = Some Closed /\
  analyserCalls (step w e) = analyserCalls w.
Proof.
  intros Hc. unfold step, analyserCalls.
  destruct e as [[|] | [audioBuffer |] | frequencyData | ];
    destruct (pending w); auto;
    unfold afterDecode, onDecodeError, timerCallback, cleanup, close, draw;
    world_fields; rewrite ?Hc; world_fields; rewrite ?Hc; world_fields;
    rewrite ?filter_app; simpl; rewrite ?app_nil_r; auto.
Qed.

(** X4. Once the context is closed it stays closed, and the analyser is
    never read nor the source stopped afterwards, whatever the host
    delivers. *)
Theorem closed_context_is_never_read (w : World) (events : list Event) :
  audioContext w = Some Closed ->
  audioContext (run w events) = Some Closed /\
  analyserCalls (run w events) = analyserCalls w.
Proof.
  revert w. induction events as [| e rest IH]; intros w Hc; simpl; [auto |].
  destruct (step_stays_closed w e Hc) as (Hc' & Hr).
  destruct (IH _ Hc') as (Hc'' & Hr'). split; [exact Hc'' | congruence].
Qed.

(** X5. Without an audio blob or without a container the effect returns at
    once: no context is built, no host call is made, and nothing the host
    delivers later changes that. *)
Theorem effect_without_blob_or_container (audioBlob contextAvailable : bool)
    (svg : option SvgElement) (events : list Event) :
  audioBlob = false \/ svg = None ->
  let w := run (mount audioBlob contextAvailable svg) events in
  calls w = [] /\ audioContext w = None /\ container w = svg /\ promise w = Unsettled.
Proof.
  intros Hguard.
  assert (Hm : mount audioBlob contextAvailable svg =
               {| audioContext := None; container := svg; pending := Idle;
                  promise := Unsettled; calls := [] |}).
  { destruct Hguard as [-> | ->]; [reflexivity |]. destruct audioBlob; reflexivity. }
  rewrite Hm. clear Hm.
  assert (Hrun : run {| audioContext := None; container := svg; pending := Idle;
                        promise := Unsettled; calls := [] |} events =
                 {| audioContext := None; container := svg; pending := Idle;
                    promise := Unsettled; calls := [] |}).
  { induction events as [| e rest IH]; [reflexivity |].
    simpl. replace (step _ e) with
      {| audioContext := None; container := svg; pending := Idle;
         promise := Unsettled; calls := [] |}; [exact IH |].
    destruct e as [[|] | [audioBuffer |] | frequencyData | ]; reflexivity. }
  cbv zeta. rewrite Hrun. auto.
Qed.

Lemma min_cases (a b : float) : Js.min a b = a \/ Js.min a b = b.
Proof.
  unfold Js.min.
  destruct (is_nan a); [auto |]. destruct (is_nan b); [auto |].
  destruct (a <? b); [auto |]. destruct (b <? a); [auto |].
  destruct (get_sign a); auto.
Qed.

(** X6. After a successful decode, playback is started at time 0, for 5 s at
    most, at the offset [Math.min(0.1, duration)]: that offset is 0.1 or the
    duration of the buffer, and (for a duration that is not [NaN]) at most
    0.1 and at most the duration.  The 100 ms timer is set next. *)
Theorem playback_starts_within_buffer (w : World) (audioBuffer : AudioBuffer.t) :
  pending w = AwaitDecode ->
  is_nan (AudioBuffer.duration audioBuffer) = false ->
  let duration := AudioBuffer.duration audioBuffer in
  let offset := Js.min 0.1 duration in
  calls (step w (DecodeSettled (Some audioBuffer))) =
    calls w ++ [CreateBufferSource; CreateAnalyser 2048; Connect;
                SourceStart 0 offset 5; SetTimeout 100] /\
  (offset = 0.1 \/ offset = duration) /\
  (offset <=? 0.1) = true /\
  (offset <=? duration) = true /\
  ((duration <? 0.1) = true -> offset = duration) /\
  ((0.1 <? duration) = true -> offset = 0.1).
Proof.
  intros Hp Hn duration offset. split; [| split; [| split; [| split; [| split]]]].
  - unfold step. rewrite Hp. unfold afterDecode. world_fields.
    rewrite <- !app_assoc. reflexivity.
  - apply min_cases.
  - apply (min_le 0.1 duration); [reflexivity | exact Hn].
  - apply (min_le 0.1 duration); [reflexivity | exact Hn].
  - intros Hlt. unfold offset, Js.min. fold duration in Hn.
    change (is_nan 0.1) with false. cbv iota. rewrite Hn.
    destruct (0.1 <? duration) eqn:Hgt; [| rewrite Hlt; reflexivity].
    exfalso. revert Hlt Hgt. rewrite !ltb_spec. unfold SFltb.
    rewrite (SFcompare_swap (Prim2SF 0.1) (Prim2SF duration)).
    destruct (SFcompare (Prim2SF 0.1) (Prim2SF duration)) as [[| |] |]; discriminate.
  - intros Hgt. unfold offset, Js.min. fold duration in Hn.
    change (is_nan 0.1) with false. cbv iota. rewrite Hn, Hgt. reflexivity.
Qed.

(** The context has been closed once at most, or twice by a failed decode
    that found it closed; after that nothing is left to run. *)
Definition closedOnceOrTwice (w : World) : Prop :=
  closedOnce w \/
  (pending w = Idle /\ isClosed w = true /\ closeCount w = 2%nat).

Lemma step_closedOnceOrTwice (w : World) (e : Event) :
  closedOnceOrTwice w -> closedOnceOrTwice (step w e).
Proof.
  intros [Hone | (Hp & Hc & Hn)].
  - destruct e as [ok | [audioBuffer |] | frequencyData | ];
      try (left; apply step_closedOnce; [exact Hone | intros (He & _); discriminate]).
    destruct (pending w) eqn:Hp;
      try (left; apply step_closedOnce; [exact Hone | intros (_ & Hp' & _); congruence]).
    destruct (isClosed w) eqn:Hc;
      [| left; apply step_closedOnce; [exact Hone | intros (_ & _ & Hc'); congruence]].
    right. unfold closedOnce in Hone. rewrite Hc in Hone.
    unfold step. rewrite Hp. unfold onDecodeError, close, draw, isClosed in *.
    world_fields. destruct (audioContext w) as [[| |] |]; try discriminate.
    world_fields. repeat split. count_closes. lia.
  - right. unfold step. rewrite Hp.
    assert (Hcl : cleanup w = w).
    { unfold cleanup, isClosed in *. destruct (audioContext w) as [[| |] |];
        try discriminate. reflexivity. }
    destruct e as [[|] | [audioBuffer |] | frequencyData | ]; rewrite ?Hcl; auto.
Qed.

(** X7. [close()] is called on the context twice at most, whatever the
    host delivers and in whatever order. *)
Theorem close_at_most_twice (audioBlob contextAvailable : bool)
    (svg : option SvgElement) (events : list Event) :
  (closeCount (run (mount audioBlob contextAvailable svg) events) <= 2)%nat.
Proof.
  assert (Hrun : forall evs w, closedOnceOrTwice w -> closedOnceOrTwice (run w evs)).
  { induction evs as [| e rest IH]; intros w Hw; simpl; [exact Hw |].
    apply IH, step_closedOnceOrTwice, Hw. }
  destruct (Hrun events _ (or_introl (mount_closedOnce audioBlob contextAvailable svg)))
    as [Hone | (_ & _ & Htwo)].
  - unfold closedOnce in Hone. rewrite Hone. destruct (isClosed _); lia.
  - rewrite Htwo. lia.
Qed.

Lemma step_rejected (w : World) (e : Event) :
  promise (step w e) = Rejected ->
  promise w = Rejected \/ e = ArrayBufferSettled false.
Proof.
  unfold step.
  destruct e as [[|] | [audioBuffer |] | frequencyData | ]; auto;
    destruct (pending w); auto;
    unfold onDecodeError, afterDecode, timerCallback, cleanup, close, draw;
    world_fields; try discriminate;
    destruct (audioContext w) as [[| |] |]; world_fields; auto; try discriminate;
    destruct (someNonZero frequencyData); world_fields; auto.
Qed.

(** X8. The promise of [processAudio] is rejected only when the audio
    context could not be built or reading the blob failed: neither a failed
    decode, nor the timer, nor the cleanup rejects it.  When the context
    cannot be built the promise is rejected from the start and stays so. *)
Theorem rejected_only_by_constructor_or_blob_read (audioBlob contextAvailable : bool)
    (svg : option SvgElement) (events : list Event) :
  (promise (run (mount audioBlob contextAvailable svg) events) = Rejected ->
     (audioBlob = true /\ svg <> None /\ contextAvailable = false) \/
     In (ArrayBufferSettled false) events) /\
  (audioBlob = true -> svg <> None -> contextAvailable = false ->
     promise (run (mount audioBlob contextAvailable svg) events) = Rejected).
Proof.
  assert (Hrun : forall evs w, promise (run w evs) = Rejected ->
            promise w = Rejected \/ In (ArrayBufferSettled false) evs).
  { induction evs as [| e rest IH]; intros w H; simpl in *; [auto |].
    destruct (IH _ H) as [Hs | Hin]; [| auto].
    destruct (step_rejected w e Hs) as [Hw | ->]; auto. }
  split.
  - intros H. destruct (Hrun events _ H) as [Hm | Hin]; [| auto].
    left. destruct audioBlob, svg, contextAvailable; try discriminate.
    repeat split; discriminate.
  - intros -> Hsvg ->. destruct svg as [svgNode |]; [| congruence].
    assert (Hidle : forall evs w,
              pending w = Idle -> audioContext w = None -> promise w = Rejected ->
              promise (run w evs) = Rejected).
    { induction evs as [| e rest IH]; intros w Hp Hc Hr; simpl; [exact Hr |].
      replace (step w e) with w; [apply IH; assumption |].
      unfold step, cleanup. rewrite Hp, Hc.
      destruct e as [[|] | [audioBuffer |] | frequencyData | ]; reflexivity. }
    apply Hidle; reflexivity.
Qed.

(** ** The table and the chart *)


End FrequencyVisualizer.

(** ** The properties at the sample inputs *)

(** The component on the reference host, with the sample preset. *)
Definition sampleDraw :=
  drawChart RefHost.log10 RefHost.scaleLog RefHost.scaleLinear Sample.eqSettings.
Definition sampleStep :=
  step RefHost.log10 RefHost.scaleLog RefHost.scaleLinear Sample.eqSettings.
Definition sampleRun :=
  run RefHost.log10 RefHost.scaleLog RefHost.scaleLinear Sample.eqSettings.

(** The example of the specification: with +3 dB at 1000 Hz and -2 dB at
    5000 Hz, the bar of a bin at 1005 Hz is a boost, that of a bin at
    5010 Hz a cut, that of a bin at 50 Hz neutral.  Four bins at a sample
    rate of 8040, 40080 and 400 Hz put bin 1, the first bar, there. *)
Lemma fill_first_match_witness :
  (exists b,
     nth_error (barsOf (sampleDraw Sample.four 8040 None (Some Sample.svg))) 0 = Some b /\
     barFill b = boostColor) /\
  (exists b,
     nth_error (barsOf (sampleDraw Sample.four 40080 None (Some Sample.svg))) 0 = Some b /\
     barFill b = cutColor) /\
  (exists b,
     nth_error (barsOf (sampleDraw Sample.four 400 None (Some Sample.svg))) 0 = Some b /\
     barFill b = neutralColor).
Proof.
  split; [| split].
  - destruct (nth_error (barsOf (sampleDraw Sample.four 8040 None (Some Sample.svg))) 0)
      as [b |] eqn:Hb; [| vm_compute in Hb; discriminate].
    exists b. split; [reflexivity |].
    destruct (proj2 (fill_first_match RefHost.log10 RefHost.scaleLog RefHost.scaleLinear
                       Sample.eqSettings Sample.four 8040 None Sample.svg) 0%nat b Hb)
      as (d & Hd & Hnear & _).
    assert (Hfreq : d = {| Datum.frequency := 1005; Datum.amplitude := x02 |})
      by (vm_compute in Hd; congruence).
    subst d.
    apply (Hnear [] Sample.boost1k [Sample.cut5k]).
    + reflexivity.
    + intros q [].
    + vm_compute. reflexivity.
    + vm_compute. reflexivity.
  - destruct (nth_error (barsOf (sampleDraw Sample.four 40080 None (Some Sample.svg))) 0)
      as [b |] eqn:Hb; [| vm_compute in Hb; discriminate].
    exists b. split; [reflexivity |].
    destruct (proj2 (fill_first_match RefHost.log10 RefHost.scaleLog RefHost.scaleLinear
                       Sample.eqSettings Sample.four 40080 None Sample.svg) 0%nat b Hb)
      as (d & Hd & Hnear & _).
    assert (Hfreq : d = {| Datum.frequency := 5010; Datum.amplitude := x02 |})
      by (vm_compute in Hd; congruence).
    subst d.
    apply (Hnear [Sample.boost1k] Sample.cut5k []).
    + reflexivity.
    + intros q [<- | []]. vm_compute. reflexivity.
    + vm_compute. reflexivity.
    + vm_compute. reflexivity.
  - destruct (nth_error (barsOf (sampleDraw Sample.four 400 None (Some Sample.svg))) 0)
      as [b |] eqn:Hb; [| vm_compute in Hb; discriminate].
    exists b. split; [reflexivity |].
    destruct (proj2 (fill_first_match RefHost.log10 RefHost.scaleLog RefHost.scaleLinear
                       Sample.eqSettings Sample.four 400 None Sample.svg) 0%nat b Hb)
      as (d & Hd & _ & Hnone).
    assert (Hfreq : d = {| Datum.frequency := 50; Datum.amplitude := x02 |})
      by (vm_compute in Hd; congruence).
    subst d.
    apply Hnone. intros q [<- | [<- | []]]; vm_compute; reflexivity.
Defined.

(** Two entries near the same bin: the first one in the list decides. *)
Example first_of_two_near :
  fill RefHost.log10
    [ {| EQSetting.frequency := 1010; EQSetting.gain := -2 |}; Sample.boost1k ]
    (Sample.binAt 1005) = cutColor /\
  fill RefHost.log10
    [ Sample.boost1k; {| EQSetting.frequency := 1010; EQSetting.gain := -2 |} ]
    (Sample.binAt 1005) = boostColor.
Proof. split; vm_compute; reflexivity. Qed.

(** Four bins at 44100 Hz: bin 1, at 5512.5 Hz, is kept; bin 0, at 0 Hz, is
    not among the kept; the first kept bin is at 20 Hz or above. *)
Lemma binData_frequencies_witness :
  Sample.four <> [] /\ (0 <? 44100) = true /\
  In {| Datum.frequency := 5512.5; Datum.amplitude := x02 |}
     (binData Sample.four 44100) /\
  (20 <=? 5512.5) = true.
Proof.
  split; [discriminate |]. split; [reflexivity |].
  pose proof (binData_frequencies RefHost.log10 RefHost.scaleLog RefHost.scaleLinear
                Sample.eqSettings Sample.four 44100
                ltac:(discriminate) ltac:(reflexivity)) as H.
  cbv zeta in H. destruct H as (_ & Hin & Hfirst & _). split.
  - apply Hin. exists 1%nat, x02. repeat split.
  - apply (Hfirst {| Datum.frequency := 5512.5; Datum.amplitude := x02 |}
             [ {| Datum.frequency := 11025; Datum.amplitude := x03 |};
               {| Datum.frequency := 16537.5; Datum.amplitude := x04 |} ]).
    reflexivity.
Defined.

(** The bar of bin 1 (21.5 Hz), the first bin in range when 1024 bins at
    44100 Hz are drawn in the 800 by 320 container. *)
Definition sampleFirstBar : Bar :=
  barOf RefHost.log10 RefHost.scaleLog RefHost.scaleLinear Sample.eqSettings
    730 260 (730 / 928)
    {| Datum.frequency := 44100 / 2048; Datum.amplitude := x01 |}.

Lemma sampleFirstBar_drawn :
  In sampleFirstBar (barsOf (sampleDraw Sample.flat 44100 None (Some Sample.svg))).
Proof. vm_compute. left. reflexivity. Qed.

(** C5 as stated fails: 1024 bins at 44100 Hz in a container 800 pixels
    wide leave 928 bins in range on a plot 730 pixels wide, and every bar is
    730 / 928 of a pixel wide, which is below 1. *)
Lemma bar_width_below_one :
  (0 <? plotWidth 800) = true /\
  List.length (binData Sample.flat 44100) = 928%nat /\
  exists b,
    In b (barsOf (sampleDraw Sample.flat 44100 None (Some Sample.svg))) /\
    barWidthAttr b = 730 / 928 /\
    (1 <=? barWidthAttr b) = false.
Proof.
  split; [reflexivity |]. split; [vm_compute; reflexivity |].
  exists sampleFirstBar. split; [exact sampleFirstBar_drawn |].
  split; vm_compute; reflexivity.
Qed.

(** On the same drawing, the width of a bar is the quotient, and above
    zero. *)
Lemma bar_width_positive_witness :
  In sampleFirstBar (barsOf (sampleDraw Sample.flat 44100 None (Some Sample.svg))) /\
  barWidthAttr sampleFirstBar = 730 / 928 /\
  (0 <? barWidthAttr sampleFirstBar) = true.
Proof.
  split; [exact sampleFirstBar_drawn |].
  split; [reflexivity |].
  exact (proj2 (bar_width_positive RefHost.log10 RefHost.scaleLog RefHost.scaleLinear
                  Sample.eqSettings Sample.flat 44100 None Sample.svg sampleFirstBar
                  sampleFirstBar_drawn)).
Defined.

(** A container that is not laid out yet has a plot 70 pixels below zero in
    width: nothing is drawn into it. *)
Lemma degenerate_geometry_draws_nothing_witness :
  (plotWidth (boundingWidth Sample.unlaid) <=? 0) = true /\
  sampleDraw Sample.flat 44100 None (Some Sample.unlaid) = Some Sample.unlaid /\
  barsOf (sampleDraw Sample.flat 44100 None (Some Sample.unlaid)) = [].
Proof.
  split; [reflexivity |].
  apply (degenerate_geometry_draws_nothing RefHost.log10 RefHost.scaleLog
           RefHost.scaleLinear Sample.eqSettings Sample.flat 44100 None Sample.unlaid).
  left. reflexivity.
Defined.

(** Four bins at a sample rate of 8 Hz lie at 0, 1, 2 and 3 Hz: no bar, and
    the quotient 730 / 0 is [Infinity]. *)
Lemma no_bin_in_range_draws_no_bar_witness :
  Sample.four <> [] /\ (0 <? 8) = true /\
  barsOf (sampleDraw Sample.four 8 None (Some Sample.svg)) = [] /\
  plotWidth 800 / Js.ofNat (List.length (binData Sample.four 8)) = infinity.
Proof.
  split; [discriminate |]. split; [reflexivity |].
  pose proof (no_bin_in_range_draws_no_bar RefHost.log10 RefHost.scaleLog
                RefHost.scaleLinear Sample.eqSettings Sample.four 8 None Sample.svg
                ltac:(discriminate) ltac:(reflexivity)) as H.
  cbv zeta in H.
  assert (Hout : forall i : nat, (i < List.length Sample.four)%nat ->
            Js.geb ((Js.ofNat i * 8) / (2 * Js.ofNat (List.length Sample.four))) 20
            && ((Js.ofNat i * 8) / (2 * Js.ofNat (List.length Sample.four)) <=? 20000)
            = false).
  { intros [| [| [| [| i]]]] Hi; try reflexivity. simpl in Hi. lia. }
  destruct (H Hout) as (Hbars & Hframe). split; [exact Hbars |].
  exact (proj2 (Hframe eq_refl eq_refl)).
Defined.

(** A world suspended on the decode, one suspended on the timer, and one
    disposed of before the timer. *)
Definition sampleDecoding : World :=
  sampleRun (mount true true (Some Sample.svg)) [ArrayBufferSettled true].
Definition samplePlaying : World :=
  sampleRun sampleDecoding [DecodeSettled (Some Sample.buffer)].
Definition sampleDisposed : World :=
  sampleRun samplePlaying [Cleanup].

Lemma decode_failure_yields_placeholder_witness :
  pending sampleDecoding = AwaitDecode /\
  snapshots (sampleStep sampleDecoding (DecodeSettled None)) =
    [ {| magnitudes := []; sampleRate := 0;
         diagnosticMessage := Some "Error decoding audio file." |} ] /\
  promise (sampleStep sampleDecoding (DecodeSettled None)) = Fulfilled.
Proof.
  split; [reflexivity |].
  destruct (decode_failure_yields_placeholder RefHost.log10 RefHost.scaleLog
              RefHost.scaleLinear Sample.eqSettings sampleDecoding eq_refl)
    as (Hsnap & _ & Hpromise & _).
  split; [exact Hsnap | exact Hpromise].
Defined.

Lemma timer_snapshot_witness :
  pending samplePlaying = AwaitTimer Sample.buffer /\
  audioContext samplePlaying = Some Running /\
  snapshots (sampleStep samplePlaying (TimerFired Sample.silent)) =
    [ {| magnitudes := []; sampleRate := 0;
         diagnosticMessage :=
           Some "Could not visualize audio: sample may be silent." |} ] /\
  snapshots (sampleStep samplePlaying (TimerFired Sample.four)) =
    [ {| magnitudes := Sample.four; sampleRate := 44100;
         diagnosticMessage := None |} ].
Proof.
  split; [reflexivity |]. split; [reflexivity |]. split.
  - apply (proj1 (timer_snapshot RefHost.log10 RefHost.scaleLog RefHost.scaleLinear
                    Sample.eqSettings samplePlaying Sample.buffer Sample.silent
                    eq_refl (or_introl eq_refl))).
    intros d Hd. apply repeat_spec in Hd. exact Hd.
  - apply (proj2 (timer_snapshot RefHost.log10 RefHost.scaleLog RefHost.scaleLinear
                    Sample.eqSettings samplePlaying Sample.buffer Sample.four
                    eq_refl (or_introl eq_refl))).
    exists x01. split; [left; reflexivity | discriminate].
Defined.

Lemma timer_after_close_does_nothing_witness :
  audioContext sampleDisposed = Some Closed /\
  timerCallback RefHost.log10 RefHost.scaleLog RefHost.scaleLinear Sample.eqSettings
    Sample.buffer Sample.flat sampleDisposed = sampleDisposed.
Proof.
  split; [reflexivity |].
  apply (timer_after_close_does_nothing RefHost.log10 RefHost.scaleLog
           RefHost.scaleLinear Sample.eqSettings sampleDisposed Sample.buffer Sample.flat).
  right. reflexivity.
Defined.

(** * AudioInput: recording, upload and submission

    The [AudioInput] component of [components/AudioInput.tsx]: its state and
    refs, its handlers, the callbacks it installs on the recorder and the
    timer, and [formatTime]. *)

Module Blob.
(** A [Blob] (a [File] is one): its type and its content. *)
Record t := { type : string; bytes : list byte }.
End Blob.

Module AudioInput.

(** ** [formatTime] *)

(** [n.toString()] for a counter of seconds, a non-negative integer. *)
Definition toString (n : nat) : string :=
  NilEmpty.string_of_uint (Nat.to_uint n).

Fixpoint repeatChar (c : ascii) (n : nat) : string :=
  match n with
  | O => EmptyString
  | S n' => String c (repeatChar c n')
  end.

(** [s.padStart(targetLength, c)] for a pad of one character. *)
Definition padStart (targetLength : nat) (c : ascii) (s : string) : string :=
  String.append (repeatChar c (targetLength - String.length s)) s.

Definition formatTime (seconds : nat) : string :=
  let minutes := (seconds / 60)%nat in
  let secs := (seconds mod 60)%nat in
  String.append (padStart 2 "0" (toString minutes))
    (String.append ":" (padStart 2 "0" (toString secs))).

(** A reading of the display, to tell two displays apart: the text before
    the first colon and the text after it, as decimal numbers. *)
Fixpoint splitColon (s : string) : option (string * string) :=
  match s with
  | EmptyString => None
  | String c rest =>
      if Ascii.eqb c ":" then Some (EmptyString, rest)
      else match splitColon rest with
           | Some (before, after) => Some (String c before, after)
           | None => None
           end
  end.

Definition readNat (s : string) : option nat :=
  option_map Nat.of_uint (NilEmpty.uint_of_string s).

Definition readTime (s : string) : option nat :=
  match splitColon s with
  | Some (m, sec) =>
      match readNat m, readNat sec with
      | Some minutes, Some secs => Some (minutes * 60 + secs)%nat
      | _, _ => None
      end
  | None => None
  end.

(** ** State, refs and host objects *)

(** A [MediaRecorder] the component has built: the [options.mimeType] its
    [onstop] callback closes over, and whether its state is 'recording'. *)
Record Recorder := { options : string; recording : bool }.

Record State := {
  isRecording : bool;
  audioURL : option string;
  audioBlob : option Blob.t;
  mimeType : string;
  recordTime : nat;
  mediaRecorderRef : option nat;       (* index into [recorders] *)
  audioChunksRef : list Blob.t;
  timerIntervalRef : option nat;       (* an interval id, 1 + index into [intervals] *)
  recorders : list Recorder;
  intervals : list bool;               (* is the interval still set *)
  submitted : list (Blob.t * string);  (* calls of [onAudioSubmit] *)
  alerts : list string                 (* calls of [alert] *)
}.

Definition initial : State :=
  {| isRecording := false; audioURL := None; audioBlob := None;
     mimeType := "audio/webm"; recordTime := 0;
     mediaRecorderRef := None; audioChunksRef := []; timerIntervalRef := None;
     recorders := []; intervals := []; submitted := []; alerts := [] |}.

Fixpoint setNth {A : Type} (n : nat) (a : A) (l : list A) : list A :=
  match l, n with
  | [], _ => []
  | _ :: rest, O => a :: rest
  | b :: rest, S n' => b :: setNth n' a rest
  end.

(** [clearInterval(id)]. *)
Definition clearInterval (id : nat) (l : list bool) : list bool :=
  match id with
  | O => l
  | S k => setNth k false l
  end.

(** [if (timerIntervalRef.current) clearInterval(timerIntervalRef.current)]. *)
Definition clearTimer (s : State) : list bool :=
  match timerIntervalRef s with
  | Some (S k) => clearInterval (S k) (intervals s)
  | _ => intervals s
  end.

(** [handleStartRecording] after [getUserMedia] has resolved.
    [webmSupported] is [MediaRecorder.isTypeSupported('audio/webm')];
    [recorderBuilt] tells whether the [MediaRecorder] constructor accepts
    the options (it throws otherwise, into the [catch]). *)
Definition startRecording (webmSupported recorderBuilt : bool) (s : State) : State :=
  let chosen := if webmSupported then "audio/webm" else "audio/mp4" in
  if recorderBuilt then
    {| isRecording := true; audioURL := None; audioBlob := None;
       mimeType := chosen; recordTime := 0;
       mediaRecorderRef := Some (List.length (recorders s));
       audioChunksRef := audioChunksRef s;
       timerIntervalRef := Some (S (List.length (intervals s)));
       recorders := recorders s ++ [ {| options := chosen; recording := true |} ];
       intervals := intervals s ++ [true];
       submitted := submitted s;
       alerts := alerts s |}
  else
    {| isRecording := true; audioURL := None; audioBlob := None;
       mimeType := chosen; recordTime := recordTime s;
       mediaRecorderRef := mediaRecorderRef s;
       audioChunksRef := audioChunksRef s;
       timerIntervalRef := timerIntervalRef s;
       recorders := recorders s; intervals := intervals s;
       submitted := submitted s;
       alerts := alerts s ++
         ["Could not access microphone. Please check your browser permissions."] |}.

(** [handleStartRecording] when [getUserMedia] rejects. *)
Definition startDenied (s : State) : State :=
  {| isRecording := isRecording s; audioURL := audioURL s; audioBlob := audioBlob s;
     mimeType := mimeType s; recordTime := recordTime s;
     mediaRecorderRef := mediaRecorderRef s; audioChunksRef := audioChunksRef s;
     timerIntervalRef := timerIntervalRef s;
     recorders := recorders s; intervals := intervals s;
     submitted := submitted s;
     alerts := alerts s ++
       ["Could not access microphone. Please check your browser permissions."] |}.

(** [ondataavailable]: every recorder pushes to the one chunk list. *)
Definition onDataAvailable (data : Blob.t) (s : State) : State :=
  {| isRecording := isRecording s; audioURL := audioURL s; audioBlob := audioBlob s;
     mimeType := mimeType s; recordTime := recordTime s;
     mediaRecorderRef := mediaRecorderRef s;
     audioChunksRef := audioChunksRef s ++ [data];
     timerIntervalRef := timerIntervalRef s;
     recorders := recorders s; intervals := intervals s;
     submitted := submitted s; alerts := alerts s |}.

(** [new Blob(parts, { type })]. *)
Definition newBlob (parts : list Blob.t) (type : string) : Blob.t :=
  {| Blob.type := type; Blob.bytes := flat_map Blob.bytes parts |}.

(** [onstop] of recorder [k]; [url] is what [URL.createObjectURL] returns. *)
Definition onStop (k : nat) (url : string) (s : State) : State :=
  match nth_error (recorders s) k with
  | None => s
  | Some r =>
      {| isRecording := isRecording s;
         audioURL := Some url;
         audioBlob := Some (newBlob (audioChunksRef s) (options r));
         mimeType := mimeType s; recordTime := recordTime s;
         mediaRecorderRef := mediaRecorderRef s;
         audioChunksRef := [];
         timerIntervalRef := timerIntervalRef s;
         recorders := setNth k {| options := options r; recording := false |} (recorders s);
         intervals := intervals s;
         submitted := submitted s; alerts := alerts s |}
  end.

(** The interval callback: [setRecordTime(prev => prev + 1)]. *)
Definition onTick (id : nat) (s : State) : State :=
  match id with
  | S k =>
      match nth_error (intervals s) k with
      | Some true =>
          {| isRecording := isRecording s; audioURL := audioURL s;
             audioBlob := audioBlob s; mimeType := mimeType s;
             recordTime := S (recordTime s);
             mediaRecorderRef := mediaRecorderRef s;
             audioChunksRef := audioChunksRef s;
             timerIntervalRef := timerIntervalRef s;
             recorders := recorders s; intervals := intervals s;
             submitted := submitted s; alerts := alerts s |}
      | _ => s
      end
  | O => s
  end.

(** [handleStopRecording].  On a recorder that is not recording, [stop()]
    throws on some hosts, and the handler ends there; on others it does
    nothing and the handler goes on. *)
Definition handleStopRecording (inactiveStopThrows : bool) (s : State) : State :=
  match mediaRecorderRef s with
  | None => s
  | Some k =>
      match nth_error (recorders s) k with
      | Some {| options := m; recording := true |} =>
          {| isRecording := false; audioURL := audioURL s; audioBlob := audioBlob s;
             mimeType := mimeType s; recordTime := recordTime s;
             mediaRecorderRef := mediaRecorderRef s;
             audioChunksRef := audioChunksRef s;
             timerIntervalRef := timerIntervalRef s;
             recorders := setNth k {| options := m; recording := false |} (recorders s);
             intervals := clearTimer s;
             submitted := submitted s; alerts := alerts s |}
      | Some {| options := m; recording := false |} =>
          if inactiveStopThrows then s
          else
            {| isRecording := false; audioURL := audioURL s; audioBlob := audioBlob s;
               mimeType := mimeType s; recordTime := recordTime s;
               mediaRecorderRef := mediaRecorderRef s;
               audioChunksRef := audioChunksRef s;
               timerIntervalRef := timerIntervalRef s;
               recorders := recorders s;
               intervals := clearTimer s;
               submitted := submitted s; alerts := alerts s |}
      | None => s
      end
  end.

(** [handleFileUpload]; [file] is [event.target.files?.[0]]. *)
Definition handleFileUpload (file : option Blob.t) (url : string) (s : State) : State :=
  match file with
  | Some f =>
      if String.prefix "audio/" (Blob.type f) then
        {| isRecording := isRecording s; audioURL := Some url; audioBlob := Some f;
           mimeType := Blob.type f; recordTime := recordTime s;
           mediaRecorderRef := mediaRecorderRef s;
           audioChunksRef := audioChunksRef s;
           timerIntervalRef := timerIntervalRef s;
           recorders := recorders s; intervals := intervals s;
           submitted := submitted s; alerts := alerts s |}
      else
        {| isRecording := isRecording s; audioURL := audioURL s;
           audioBlob := audioBlob s; mimeType := mimeType s;
           recordTime := recordTime s;
           mediaRecorderRef := mediaRecorderRef s;
           audioChunksRef := audioChunksRef s;
           timerIntervalRef := timerIntervalRef s;
           recorders := recorders s; intervals := intervals s;
           submitted := submitted s;
           alerts := alerts s ++ ["Please upload a valid audio file."] |}
  | None =>
      {| isRecording := isRecording s; audioURL := audioURL s;
         audioBlob := audioBlob s; mimeType := mimeType s;
         recordTime := recordTime s;
         mediaRecorderRef := mediaRecorderRef s;
         audioChunksRef := audioChunksRef s;
         timerIntervalRef := timerIntervalRef s;
         recorders := recorders s; intervals := intervals s;
         submitted := submitted s;
         alerts := alerts s ++ ["Please upload a valid audio file."] |}
  end.

Definition handleSubmit (s : State) : State :=
  match audioBlob s with
  | Some b =>
      {| isRecording := isRecording s; audioURL := audioURL s;
         audioBlob := audioBlob s; mimeType := mimeType s;
         recordTime := recordTime s;
         mediaRecorderRef := mediaRecorderRef s;
         audioChunksRef := audioChunksRef s;
         timerIntervalRef := timerIntervalRef s;
         recorders := recorders s; intervals := intervals s;
         submitted := submitted s ++ [(b, mimeType s)];
         alerts := alerts s |}
  | None => s
  end.

Definition handleReset (s : State) : State :=
  {| isRecording := false; audioURL := None; audioBlob := None;
     mimeType := mimeType s; recordTime := 0;
     mediaRecorderRef := mediaRecorderRef s;
     audioChunksRef := audioChunksRef s;
     timerIntervalRef := timerIntervalRef s;
     recorders :=
       match mediaRecorderRef s with
       | Some k =>
           match nth_error (recorders s) k with
           | Some {| options := m; recording := true |} =>
               setNth k {| options := m; recording := false |} (recorders s)
           | _ => recorders s
           end
       | None => recorders s
       end;
     intervals := clearTimer s;
     submitted := submitted s; alerts := alerts s |}.

(** What happens to the component: the user's actions and the host's
    callbacks.  No order is imposed on them. *)
Inductive Event :=
| MicrophoneGranted (webmSupported recorderBuilt : bool)
| MicrophoneDenied
| DataAvailable (data : Blob.t)
| RecorderStopped (recorder : nat) (url : string)
| Tick (interval : nat)
| StopClicked (inactiveStopThrows : bool)
| FileChosen (file : option Blob.t) (url : string)
| SubmitClicked
| ResetClicked.

Definition step (s : State) (e : Event) : State :=
  match e with
  | MicrophoneGranted webmSupported recorderBuilt =>
      startRecording webmSupported recorderBuilt s
  | MicrophoneDenied => startDenied s
  | DataAvailable data => onDataAvailable data s
  | RecorderStopped k url => onStop k url s
  | Tick id => onTick id s
  | StopClicked inactiveStopThrows => handleStopRecording inactiveStopThrows s
  | FileChosen file url => handleFileUpload file url s
  | SubmitClicked => handleSubmit s
  | ResetClicked => handleReset s
  end.

Definition run (s : State) (events : list Event) : State :=
  fold_left step events s.

(** [type.startsWith('audio/')]. *)
Definition isAudio (type : string) : bool := String.prefix "audio/" type.

(** Everything the component holds or has passed on is audio. *)
Definition audioOnly (s : State) : Prop :=
  (forall b, audioBlob s = Some b -> isAudio (Blob.type b) = true) /\
  isAudio (mimeType s) = true /\
  (forall r, In r (recorders s) -> isAudio (options r) = true) /\
  (forall b m, In (b, m) (submitted s) ->
     isAudio (Blob.type b) = true /\ isAudio m = true).

(** ** Properties of [formatTime] *)

Lemma length_append (a b : string) :
  String.length (String.append a b) = (String.length a + String.length b)%nat.
Proof. induction a as [| c a IH]; simpl; [| rewrite IH]; reflexivity. Qed.

Lemma length_repeatChar (c : ascii) (n : nat) : String.length (repeatChar c n) = n.
Proof. induction n as [| n IH]; simpl; [| rewrite IH]; reflexivity. Qed.

Lemma length_padStart (n : nat) (c : ascii) (s : string) :
  String.length (padStart n c s) = Nat.max n (String.length s).
Proof. unfold padStart. rewrite length_append, length_repeatChar. lia. Qed.

(** Below 100, the padded number has exactly two characters. *)
Lemma two_characters (n : nat) :
  (n < 100)%nat ->
  exists a b, padStart 2 "0" (toString n) = String a (String b EmptyString).
Proof.
  intros Hn.
  assert (Hall : forallb (fun k => Nat.eqb (String.length (padStart 2 "0" (toString k))) 2)
                   (seq 0 100) = true) by (vm_compute; reflexivity).
  rewrite forallb_forall in Hall.
  specialize (Hall n ltac:(apply in_seq; lia)). apply Nat.eqb_eq in Hall.
  destruct (padStart 2 "0" (toString n)) as [| a [| b [| c rest]]]; try discriminate.
  eauto.
Qed.

(** X10. The display has five characters or more, and exactly five, the
    third of them the colon, for a time under 100 minutes. *)
Theorem formatTime_length (seconds : nat) :
  (5 <= String.length (formatTime seconds))%nat /\
  ((seconds < 100 * 60)%nat ->
     String.length (formatTime seconds) = 5%nat /\
     String.get 2 (formatTime seconds) = Some ":"%char).
Proof.
  split.
  - unfold formatTime. cbv zeta. rewrite !length_append, !length_padStart. cbn [String.length]. lia.
  - intros Hs. unfold formatTime. cbv zeta.
    destruct (two_characters (seconds / 60)) as (a & b & ->).
    { apply Nat.Div0.div_lt_upper_bound. lia. }
    destruct (two_characters (seconds mod 60)) as (c & d & ->).
    { pose proof (Nat.mod_upper_bound seconds 60). lia. }
    split; reflexivity.
Qed.

Lemma uint_digits_no_colon (d : Decimal.uint) (rest : string) :
  splitColon (String.append (NilEmpty.string_of_uint d) (String ":" rest)) =
  Some (NilEmpty.string_of_uint d, rest).
Proof. induction d; simpl; rewrite ?IHd; reflexivity. Qed.

Lemma readNat_toString (n : nat) : readNat (toString n) = Some n.
Proof.
  unfold readNat, toString. rewrite NilEmpty.usu. simpl.
  rewrite DecimalNat.Unsigned.of_to. reflexivity.
Qed.

(** Padding adds zeros in front: the text has no colon and reads as the
    same number. *)
Lemma padded_number (n : nat) :
  exists d, padStart 2 "0" (toString n) = NilEmpty.string_of_uint d /\
            Nat.of_uint d = n.
Proof.
  unfold padStart, toString.
  pose proof (DecimalNat.Unsigned.of_to n) as Hn.
  destruct (2 - String.length (NilEmpty.string_of_uint (Nat.to_uint n)))%nat
    as [| [| k]] eqn:Hk.
  - exists (Nat.to_uint n). auto.
  - exists (Decimal.D0 (Nat.to_uint n)). split; [reflexivity |].
    rewrite <- Hn at 2. reflexivity.
  - assert (k = 0%nat) by lia. subst k.
    exists (Decimal.D0 (Decimal.D0 (Nat.to_uint n))). split; [reflexivity |].
    rewrite <- Hn at 2. reflexivity.
Qed.

Lemma readTime_formatTime (seconds : nat) : readTime (formatTime seconds) = Some seconds.
Proof.
  unfold readTime, formatTime. cbv zeta.
  destruct (padded_number (seconds / 60)) as (dm & -> & Hm).
  destruct (padded_number (seconds mod 60)) as (ds & -> & Hs).
  change (String.append ":" (NilEmpty.string_of_uint ds))
    with (String ":" (NilEmpty.string_of_uint ds)).
  rewrite uint_digits_no_colon. unfold readNat. rewrite !NilEmpty.usu. simpl.
  rewrite Hm, Hs. f_equal.
  pose proof (Nat.div_mod_eq seconds 60). lia.
Qed.

(** X11. No two times share a display: [formatTime] is injective, and the
    minutes and seconds read off the display give the time back. *)
Theorem formatTime_injective (a b : nat) :
  formatTime a = formatTime b -> a = b.
Proof.
  intros H. pose proof (readTime_formatTime a) as Ha.
  rewrite H, readTime_formatTime in Ha. congruence.
Qed.

(** ** Properties of the handlers *)

Lemma In_setNth {A : Type} (n : nat) (a : A) (l : list A) (x : A) :
  In x (setNth n a l) -> x = a \/ In x l.
Proof.
  revert n. induction l as [| b rest IH]; intros n H;
    [destruct n; simpl in H; tauto |].
  destruct n; simpl in *.
  - destruct H as [<- | H]; auto.
  - destruct H as [<- | H]; auto. destruct (IH _ H); auto.
Qed.

Lemma step_audioOnly (s : State) (e : Event) : audioOnly s -> audioOnly (step s e).
Proof.
  intros (Hblob & Hmime & Hrec & Hsub).
  assert (Hstopped : forall k m flag r,
            nth_error (recorders s) k = Some {| options := m; recording := flag |} ->
            In r (setNth k {| options := m; recording := false |} (recorders s)) ->
            isAudio (options r) = true).
  { intros k m flag r Hk Hr. apply In_setNth in Hr. destruct Hr as [-> | Hr]; auto.
    apply (Hrec {| options := m; recording := flag |}). eapply nth_error_In; eauto. }
  destruct e as [webm built | | data | k url | id | throws | file url | | ]; simpl.
  - unfold startRecording. destruct built; (split; [| split; [| split]]); simpl; auto;
      try discriminate; try (destruct webm; reflexivity).
    intros r Hr. apply in_app_or in Hr. destruct Hr as [Hr | [<- | []]]; [auto |].
    destruct webm; reflexivity.
  - split; [| split; [| split]]; simpl; auto.
  - split; [| split; [| split]]; simpl; auto.
  - unfold onStop.
    destruct (nth_error (recorders s) k) as [[m flag] |] eqn:Hk;
      (split; [| split; [| split]]); simpl; auto.
    + intros b [= <-]. simpl.
      apply (Hrec {| options := m; recording := flag |}). eapply nth_error_In; eauto.
    + intros r. apply (Hstopped k m flag r Hk).
  - unfold onTick. destruct id as [| j]; [split; [| split; [| split]]; auto |].
    destruct (nth_error (intervals s) j) as [[|] |];
      (split; [| split; [| split]]); simpl; auto.
  - unfold handleStopRecording.
    destruct (mediaRecorderRef s) as [k |]; [| split; [| split; [| split]]; auto].
    destruct (nth_error (recorders s) k) as [[m [|]] |] eqn:Hk;
      try destruct throws; (split; [| split; [| split]]); simpl; auto.
    all: intros r; apply (Hstopped k m true r Hk).
  - unfold handleFileUpload. destruct file as [f |];
      [destruct (String.prefix "audio/" (Blob.type f)) eqn:Hf |];
      (split; [| split; [| split]]); simpl; auto.
    intros b [= <-]. exact Hf.
  - unfold handleSubmit. destruct (audioBlob s) as [b |] eqn:Hb;
      (split; [| split; [| split]]); simpl; auto.
    + intros b' m' Hin. apply in_app_or in Hin.
      destruct Hin as [Hin | [[= <- <-] | []]]; [apply (Hsub _ _ Hin) | auto].
    + intros b' Hb'. congruence.
  - unfold handleReset. split; [| split; [| split]]; simpl; auto; try discriminate.
    intros r Hr. destruct (mediaRecorderRef s) as [k |]; [| auto].
    destruct (nth_error (recorders s) k) as [[m [|]] |] eqn:Hk; auto.
    apply (Hstopped k m true r Hk Hr).
Qed.

(** X12. Whatever the user does and the host delivers, in whatever order,
    every call of [onAudioSubmit] passes a blob whose type starts with
    "audio/" together with a MIME type that starts with "audio/". *)
Theorem only_audio_is_submitted (events : list Event) (b : Blob.t) (m : string) :
  In (b, m) (submitted (run initial events)) ->
  String.prefix "audio/" (Blob.type b) = true /\ String.prefix "audio/" m = true.
Proof.
  assert (Hrun : forall evs s, audioOnly s -> audioOnly (run s evs)).
  { induction evs as [| e rest IH]; intros s Hs; simpl; [exact Hs |].
    apply IH, step_audioOnly, Hs. }
  assert (Hinit : audioOnly initial).
  { unfold audioOnly, initial. simpl. repeat split; try discriminate; tauto. }
  intros Hin. exact (proj2 (proj2 (proj2 (Hrun events _ Hinit))) b m Hin).
Qed.

End AudioInput.

(** * App: submission, analysis and what is shown

    [blobToBase64], [handleAudioSubmit], [handleReset] and [renderContent]
    of [App.tsx], and [analyzeAudio] of [services/geminiService.ts]. *)

Module App.

(** What a promise is rejected with, or a [catch] receives: an [Error] with
    its message, or a value that is not an [Error] (the [ProgressEvent] of a
    failed read). *)
Inductive Thrown := JsError (message : string) | NotAnError.

Inductive Settled (A : Type) :=
| Resolved (a : A)
| RejectedWith (reason : Thrown).
Arguments Resolved {A} a.
Arguments RejectedWith {A} reason.

(** ** [blobToBase64] *)

(** [s.split(sep)] for a separator of one character. *)
Fixpoint split (sep : ascii) (s : string) : list string :=
  match s with
  | EmptyString => [EmptyString]
  | String c rest =>
      match split sep rest with
      | segment :: segments =>
          if Ascii.eqb c sep then EmptyString :: segment :: segments
          else String c segment :: segments
      | [] => []
      end
  end.

(** How the [FileReader] ends: [onloadend] alone, with [reader.result] a
    string or not, or [onerror] first (the later [onloadend] then finds the
    promise settled). *)
Inductive ReadOutcome :=
| LoadEnd (result : option string)
| ReadError.

(** What the promise of [blobToBase64] settles to; [None] is [undefined],
    the element 1 of an array that has none. *)
Definition blobToBase64 (read : ReadOutcome) : Settled (option string) :=
  match read with
  | LoadEnd (Some result) => Resolved (nth_error (split "," result) 1)
  | LoadEnd None => RejectedWith (JsError "Failed to convert blob to base64")
  | ReadError => RejectedWith NotAnError
  end.

Fixpoint noComma (s : string) : bool :=
  match s with
  | EmptyString => true
  | String c rest => negb (Ascii.eqb c ",") && noComma rest
  end.

(** ** [analyzeAudio] *)

(** [VocalProfile] of [types.ts]. *)
Record VocalProfile := {
  description : string;
  fundamentalRange : string;
  keyCharacteristics : list string
}.

(** What [JSON.parse] returned, read as a [GeminiAnalysisResult]: the cast
    checks nothing, so each property may be missing. *)
Record AnalysisResult := {
  resultVocalProfile : option VocalProfile;
  eqPreset : option (list EQSetting.t);
  resultAudacityXml : option string
}.

Inductive Value := Null | Object (result : AnalysisResult).

Inductive Parsed :=
| ParseFails (message : string)      (* a SyntaxError *)
| Parses (value : Value).

(** What [ai.models.generateContent] does: it throws, or it answers with
    [response.text] a string or undefined. *)
Inductive ApiOutcome :=
| ApiThrows (thrown : Thrown)
| ApiResponds (text : option string).

(** [hay.includes(needle)]. *)
Definition includes (needle hay : string) : bool :=
  match String.index 0 needle hay with
  | Some _ => true
  | None => false
  end.

Definition safetyMessage : string :=
  "The audio could not be processed due to safety settings. Please try a different audio sample.".
Definition failureMessage : string :=
  "Failed to get analysis from Gemini. Please check the console for more details.".

Inductive Status := Idle | Processing | Success | Error.

(** The state of [App], and the submission whose promise is pending (its
    [mimeType]), if any. *)
Record State := {
  status : Status;
  error : option string;
  vocalProfile : option VocalProfile;
  eqSettings : option (list EQSetting.t);
  audioBlob : option Blob.t;
  audacityXml : option string;
  awaiting : option string;
  requests : list (option string * string)   (* data and mimeType sent for analysis *)
}.

Definition initial : State :=
  {| status := Idle; error := None; vocalProfile := None; eqSettings := None;
     audioBlob := None; audacityXml := None; awaiting := None; requests := [] |}.

(** What [renderContent] returns. *)
Inductive View :=
| Loader (message : string)
| ResultsView (vocalProfile : VocalProfile) (eqSettings : list EQSetting.t)
              (audioBlob : Blob.t) (audacityXml : string)
| Nothing
| ErrorPanel (error : option string)
| AudioInput (isProcessing : bool).

Definition renderContent (s : State) : View :=
  match status s with
  | Processing => Loader "Gemini is analyzing your voice... this may take a moment."
  | Success =>
      match vocalProfile s, eqSettings s, audioBlob s, audacityXml s with
      | Some p, Some e, Some b, Some (String c rest) => ResultsView p e b (String c rest)
      | _, _, _, _ => Nothing
      end
  | Error => ErrorPanel (error s)
  | Idle => AudioInput false
  end.

Definition handleReset (s : State) : State :=
  {| status := Idle; error := None; vocalProfile := None; eqSettings := None;
     audioBlob := None; audacityXml := None;
     awaiting := awaiting s; requests := requests s |}.

(** [handleAudioSubmit] up to its first [await]. *)
Definition submitStart (blob : Blob.t) (mimeType : string) (s : State) : State :=
  {| status := Processing; error := None;
     vocalProfile := vocalProfile s; eqSettings := eqSettings s;
     audioBlob := Some blob; audacityXml := audacityXml s;
     awaiting := Some mimeType; requests := requests s |}.

(** The [catch] block of [handleAudioSubmit]. *)
Definition submitFailed (thrown : Thrown) (s : State) : State :=
  {| status := Error;
     error := Some match thrown with
                   | JsError message => message
                   | NotAnError => "An unknown error occurred during analysis."
                   end;
     vocalProfile := vocalProfile s; eqSettings := eqSettings s;
     audioBlob := audioBlob s; audacityXml := audacityXml s;
     awaiting := None; requests := requests s |}.

Inductive Event :=
| Submit (blob : Blob.t) (mimeType : string)
| Settle (read : ReadOutcome) (api : ApiOutcome)
| Reset.

Section Host.

(** [JSON.parse], and the message of the [TypeError] the host raises when a
    property of [null] is read. *)
Variable JSONparse : string -> Parsed.
Variable nullPropertyMessage : string.

(** The [try] block of [analyzeAudio]. *)
Definition requestAnalysis (api : ApiOutcome) : Settled Value :=
  match api with
  | ApiThrows thrown => RejectedWith thrown
  | ApiResponds None | ApiResponds (Some EmptyString) =>
      RejectedWith (JsError "Gemini returned an empty response.")
  | ApiResponds (Some text) =>
      match JSONparse text with
      | ParseFails message => RejectedWith (JsError message)
      | Parses value => Resolved value
      end
  end.

(** [analyzeAudio], as a function of what the API does. *)
Definition analyzeAudio (api : ApiOutcome) : Settled Value :=
  match requestAnalysis api with
  | Resolved value => Resolved value
  | RejectedWith (JsError message) =>
      if includes "SAFETY" message then RejectedWith (JsError safetyMessage)
      else RejectedWith (JsError failureMessage)
  | RejectedWith NotAnError => RejectedWith (JsError failureMessage)
  end.

(** [handleAudioSubmit] from the first [await] on.  The API is called only
    when the blob has been read. *)
Definition submitFinish (mimeType : string) (read : ReadOutcome) (api : ApiOutcome)
    (s : State) : State :=
  match blobToBase64 read with
  | RejectedWith thrown => submitFailed thrown s
  | Resolved base64Audio =>
      let s := {| status := status s; error := error s;
                  vocalProfile := vocalProfile s; eqSettings := eqSettings s;
                  audioBlob := audioBlob s; audacityXml := audacityXml s;
                  awaiting := awaiting s;
                  requests := requests s ++ [(base64Audio, mimeType)] |} in
      match analyzeAudio api with
      | RejectedWith thrown => submitFailed thrown s
      | Resolved Null => submitFailed (JsError nullPropertyMessage) s
      | Resolved (Object result) =>
          {| status := Success; error := error s;
             vocalProfile := resultVocalProfile result;
             eqSettings := eqPreset result;
             audioBlob := audioBlob s;
             audacityXml := resultAudacityXml result;
             awaiting := None; requests := requests s |}
      end
  end.

(** One event.  A handler runs only when the view on screen offers it: the
    submit button is in [AudioInput], the reset buttons in [ResultsView] and
    in the error panel. *)
Definition step (s : State) (e : Event) : State :=
  match e with
  | Submit blob mimeType =>
      match renderContent s with
      | AudioInput _ => submitStart blob mimeType s
      | _ => s
      end
  | Settle read api =>
      match awaiting s with
      | Some mimeType => submitFinish mimeType read api s
      | None => s
      end
  | Reset =>
      match renderContent s with
      | ResultsView _ _ _ _ | ErrorPanel _ => handleReset s
      | _ => s
      end
  end.

Definition run (s : State) (events : list Event) : State :=
  fold_left step events s.

(** The texts the error panel can show. *)
Definition errorTexts : list string :=
  [ safetyMessage; failureMessage; "Failed to convert blob to base64";
    "An unknown error occurred during analysis."; nullPropertyMessage ].

(** What holds of the state between events. *)
Definition consistent (s : State) : Prop :=
  match status s with
  | Idle =>
      error s = None /\ vocalProfile s = None /\ eqSettings s = None /\
      audioBlob s = None /\ audacityXml s = None /\ awaiting s = None
  | Processing => error s = None /\ audioBlob s <> None /\ awaiting s <> None
  | Success => error s = None /\ audioBlob s <> None /\ awaiting s = None
  | Error =>
      (exists m, error s = Some m /\ In m errorTexts) /\
      audioBlob s <> None /\ awaiting s = None
  end.

(** ** Properties of [blobToBase64] *)

Lemma split_nonempty (sep : ascii) (s : string) : split sep s <> [].
Proof.
  induction s as [| c rest IH]; simpl; [discriminate |].
  destruct (split sep rest); [congruence |]. destruct (Ascii.eqb c sep); discriminate.
Qed.

Lemma split_no_comma (s : string) : noComma s = true -> split "," s = [s].
Proof.
  induction s as [| c rest IH]; simpl; [reflexivity |].
  intros H. apply andb_true_iff in H. destruct H as (Hc & Hrest).
  rewrite (IH Hrest). apply negb_true_iff in Hc. rewrite Hc. reflexivity.
Qed.

Lemma split_header (header rest : string) :
  noComma header = true ->
  split "," (String.append header (String "," rest)) = header :: split "," rest.
Proof.
  induction header as [| c h IH]; simpl.
  - intros _. destruct (split "," rest) eqn:Hs; [| reflexivity].
    elim (split_nonempty _ _ Hs).
  - intros H. apply andb_true_iff in H. destruct H as (Hc & Hh).
    rewrite (IH Hh). apply negb_true_iff in Hc. rewrite Hc. reflexivity.
Qed.

(** X13. From a data URL, a header without comma, a comma and a payload
    without comma, [blobToBase64] resolves to the payload.  From a result
    without any comma it resolves to undefined rather than reject. *)
Theorem blobToBase64_payload (header payload : string) :
  noComma header = true ->
  (noComma payload = true ->
     blobToBase64 (LoadEnd (Some (String.append header (String "," payload)))) =
     Resolved (Some payload)) /\
  blobToBase64 (LoadEnd (Some header)) = Resolved None.
Proof.
  intros Hh. split.
  - intros Hp. unfold blobToBase64.
    rewrite (split_header _ _ Hh), (split_no_comma _ Hp). reflexivity.
  - unfold blobToBase64. rewrite (split_no_comma _ Hh). reflexivity.
Qed.

(** ** Properties of [analyzeAudio] *)

Lemma analyzeAudio_rejection (api : ApiOutcome) (thrown : Thrown) :
  analyzeAudio api = RejectedWith thrown ->
  thrown = JsError safetyMessage \/ thrown = JsError failureMessage.
Proof.
  unfold analyzeAudio.
  destruct (requestAnalysis api) as [v | [message |]]; try discriminate.
  - destruct (includes "SAFETY" message); intros [= <-]; auto.
  - intros [= <-]. auto.
Qed.

(** X14. [analyzeAudio] resolves exactly when the API answered with a text
    that is not empty and that [JSON.parse] accepts, and then to the parsed
    value.  When it rejects, the message is one of two fixed texts: the
    "Gemini returned an empty response." of its own [try] block is replaced
    like any other. *)
Theorem analyzeAudio_outcomes (api : ApiOutcome) :
  (forall value,
     analyzeAudio api = Resolved value <->
     exists text, api = ApiResponds (Some text) /\ text <> EmptyString /\
                  JSONparse text = Parses value) /\
  (forall thrown,
     analyzeAudio api = RejectedWith thrown ->
     (thrown = JsError safetyMessage \/ thrown = JsError failureMessage) /\
     thrown <> JsError "Gemini returned an empty response.") /\
  (api = ApiResponds None \/ api = ApiResponds (Some EmptyString) ->
     analyzeAudio api = RejectedWith (JsError failureMessage)).
Proof.
  split; [| split].
  - intros value. unfold analyzeAudio, requestAnalysis. split.
    + destruct api as [[m |] | [[| c rest] |]]; simpl;
        try (destruct (includes "SAFETY" m)); try discriminate.
      destruct (JSONparse (String c rest)) as [m | v] eqn:Hparse.
      * destruct (includes "SAFETY" m); discriminate.
      * intros [= <-]. exists (String c rest). repeat split; [discriminate | exact Hparse].
    + intros (text & -> & Hne & Hparse). destruct text as [| c rest]; [congruence |].
      rewrite Hparse. reflexivity.
  - intros thrown H. destruct (analyzeAudio_rejection api thrown H) as [-> | ->];
      split; auto; discriminate.
  - intros [-> | ->]; reflexivity.
Qed.

(** ** Properties of the state of [App] *)

Lemma submitFailed_consistent (thrown : Thrown) (s : State) :
  audioBlob s <> None ->
  (forall m, thrown = JsError m -> In m errorTexts) ->
  consistent (submitFailed thrown s).
Proof.
  intros Hblob Hm. unfold consistent, submitFailed. simpl. repeat split; auto.
  destruct thrown as [m |].
  - exists m. split; [reflexivity | apply Hm; reflexivity].
  - eexists. split; [reflexivity |]. unfold errorTexts. simpl. tauto.
Qed.

Lemma step_consistent (s : State) (e : Event) : consistent s -> consistent (step s e).
Proof.
  intros Hs. destruct e as [blob mimeType | read api | ]; simpl.
  - destruct (renderContent s); try exact Hs.
    unfold consistent, submitStart. simpl. repeat split; discriminate.
  - destruct (awaiting s) as [mimeType |] eqn:Haw; [| exact Hs].
    assert (Hblob : audioBlob s <> None).
    { unfold consistent in Hs. destruct (status s); try tauto.
      destruct Hs as (_ & _ & _ & _ & _ & H). congruence. }
    unfold submitFinish.
    destruct (blobToBase64 read) as [base64 | thrown] eqn:Hread.
    + destruct (analyzeAudio api) as [[| result] | thrown] eqn:Hapi.
      * apply submitFailed_consistent; [exact Hblob |].
        intros m [= <-]. unfold errorTexts. simpl. tauto.
      * unfold consistent. simpl.
        assert (Herr : error s = None).
        { unfold consistent in Hs. destruct (status s); try tauto.
          destruct Hs as (_ & _ & H). congruence. }
        auto.
      * apply submitFailed_consistent; [exact Hblob |].
        intros m ->. destruct (analyzeAudio_rejection api _ Hapi) as [[= ->] | [= ->]];
          unfold errorTexts; simpl; tauto.
    + apply submitFailed_consistent; [exact Hblob |].
      intros m ->. destruct read as [[result |] |]; simpl in Hread; try discriminate.
      injection Hread as <-. unfold errorTexts. simpl. tauto.
  - destruct (renderContent s) eqn:Hv; try exact Hs;
      unfold consistent, handleReset; simpl;
      unfold consistent in Hs; unfold renderContent in Hv;
      destruct (status s); try discriminate; repeat split; tauto.
Qed.

Lemma run_consistent (events : list Event) :
  forall s, consistent s -> consistent (run s events).
Proof.
  induction events as [| e rest IH]; intros s Hs; simpl; [exact Hs |].
  apply IH, step_consistent, Hs.
Qed.

Lemma initial_consistent : consistent initial.
Proof. unfold consistent, initial. simpl. tauto. Qed.

(** X15. Whatever is submitted, however it settles and whenever reset is
    pressed: in the idle state every piece of data is cleared; while
    processing, and after success or failure, the submitted blob is held;
    and an error text is present exactly in the error state. *)
Theorem state_follows_status (events : list Event) :
  let s := run initial events in
  (status s = Idle ->
     vocalProfile s = None /\ eqSettings s = None /\ audioBlob s = None /\
     audacityXml s = None) /\
  (status s <> Idle -> audioBlob s <> None) /\
  (status s = Error <-> error s <> None) /\
  (status s = Processing <-> awaiting s <> None).
Proof.
  pose proof (run_consistent events _ initial_consistent) as H.
  cbv zeta. unfold consistent in H.
  destruct (status (run initial events)).
  - destruct H as (He & Hp & Hq & Hb & Hx & Ha). rewrite He, Ha.
    repeat split; auto; try congruence; try discriminate.
  - destruct H as (He & Hb & Ha). rewrite He.
    repeat split; auto; try congruence; try discriminate.
  - destruct H as (He & Hb & Ha). rewrite He, Ha.
    repeat split; auto; try congruence; try discriminate.
  - destruct H as ((m & He & _) & Hb & Ha). rewrite He, Ha.
    repeat split; auto; try congruence; try discriminate.
Qed.

(** X16. The error panel shows one of five texts only: the two of
    [analyzeAudio], the two of the failed read, or the host's message for a
    property read on [null].  What the API itself threw never shows. *)
Theorem error_panel_texts (events : list Event) (m : string) :
  error (run initial events) = Some m ->
  In m [ safetyMessage; failureMessage; "Failed to convert blob to base64";
         "An unknown error occurred during analysis."; nullPropertyMessage ].
Proof.
  pose proof (run_consistent events _ initial_consistent) as H.
  unfold consistent in H. intros Hm.
  destruct (status (run initial events)); try (destruct H as (He & _); congruence).
  destruct H as ((m' & He & Hin) & _).
  assert (Heq : m = m') by congruence. subst m'. exact Hin.
Qed.

(** X17. A successful analysis with a profile, a preset or an XML text
    missing, or with an empty XML text, leaves the panel empty; and from an
    empty panel no event changes the state any more. *)
Theorem blank_success_is_final (events more : list Event) :
  let s := run initial events in
  renderContent s = Nothing ->
  (status s = Success /\
   (vocalProfile s = None \/ eqSettings s = None \/ audacityXml s = None \/
    audacityXml s = Some EmptyString)) /\
  run s more = s.
Proof.
  cbv zeta. pose proof (run_consistent events _ initial_consistent) as H.
  intros Hview. set (s := run initial events) in *.
  assert (Hst : status s = Success)
    by (unfold renderContent in Hview; destruct (status s); congruence).
  assert (Haw : awaiting s = None)
    by (unfold consistent in H; rewrite Hst in H; tauto).
  split.
  - split; [exact Hst |].
    unfold consistent in H. rewrite Hst in H. destruct H as (_ & Hb & _).
    unfold renderContent in Hview. rewrite Hst in Hview.
    destruct (vocalProfile s); [| auto]. destruct (eqSettings s); [| auto].
    destruct (audioBlob s); [| congruence].
    destruct (audacityXml s) as [[| c rest] |]; auto. discriminate.
  - induction more as [| e rest IH]; [reflexivity |].
    simpl. replace (step s e) with s; [exact IH |].
    destruct e as [blob mimeType | read api | ]; simpl; rewrite ?Hview, ?Haw; reflexivity.
Qed.

End Host.

End App.

(** * The further properties at sample inputs *)

Lemma no_data_placeholder_witness :
  degenerate Sample.svg = false /\
  barsOf (sampleDraw [] 0 (Some "Error decoding audio file.") (Some Sample.svg)) = [] /\
  barsOf (sampleDraw Sample.flat nan None (Some Sample.svg)) = [].
Proof.
  split; [reflexivity |]. split.
  - apply (no_data_placeholder RefHost.log10 RefHost.scaleLog RefHost.scaleLinear
             Sample.eqSettings [] 0 (Some "Error decoding audio file.") Sample.svg
             eq_refl (or_introl eq_refl)).
  - apply (no_data_placeholder RefHost.log10 RefHost.scaleLog RefHost.scaleLinear
             Sample.eqSettings Sample.flat nan None Sample.svg
             eq_refl (or_intror (or_intror (or_intror eq_refl)))).
Defined.

(** Of four bins at 44100 Hz, the bin at 0 Hz is dropped and three bars are
    drawn. *)
Lemma dc_bin_never_drawn_witness :
  In {| Datum.frequency := 5512.5; Datum.amplitude := x02 |} (binData Sample.four 44100) /\
  (exists i d, (1 <= i)%nat /\ nth_error Sample.four i = Some d /\
     {| Datum.frequency := 5512.5; Datum.amplitude := x02 |} =
     {| Datum.frequency := (Js.ofNat i * 44100) / (2 * Js.ofNat (List.length Sample.four));
        Datum.amplitude := d |}) /\
  (List.length (barsOf (sampleDraw Sample.four 44100 None (Some Sample.svg))) <= 3)%nat.
Proof.
  assert (Hin : In {| Datum.frequency := 5512.5; Datum.amplitude := x02 |}
                   (binData Sample.four 44100)) by (vm_compute; left; reflexivity).
  destruct (dc_bin_never_drawn RefHost.log10 RefHost.scaleLog RefHost.scaleLinear
              Sample.eqSettings Sample.four 44100 None Sample.svg) as (Hidx & Hlen).
  split; [exact Hin |]. split; [exact (Hidx _ Hin) | exact Hlen].
Defined.

Lemma closed_context_is_never_read_witness :
  audioContext sampleDisposed = Some Closed /\
  analyserCalls (sampleRun sampleDisposed
                   [TimerFired Sample.flat; Cleanup; DecodeSettled None]) = [].
Proof.
  split; [reflexivity |].
  apply (closed_context_is_never_read RefHost.log10 RefHost.scaleLog RefHost.scaleLinear
           Sample.eqSettings sampleDisposed
           [TimerFired Sample.flat; Cleanup; DecodeSettled None] eq_refl).
Defined.

Lemma effect_without_blob_or_container_witness :
  calls (sampleRun (mount true true None)
           [ArrayBufferSettled true; DecodeSettled (Some Sample.buffer);
            TimerFired Sample.flat; Cleanup]) = [].
Proof.
  apply (effect_without_blob_or_container RefHost.log10 RefHost.scaleLog
           RefHost.scaleLinear Sample.eqSettings true true None
           [ArrayBufferSettled true; DecodeSettled (Some Sample.buffer);
            TimerFired Sample.flat; Cleanup]).
  right. reflexivity.
Defined.

(** A clip of 0.05 s: playback starts at 0.05 s, not at 0.1 s. *)
Definition sampleShortClip : AudioBuffer.t :=
  {| AudioBuffer.sampleRate := 44100; AudioBuffer.duration := 0.05 |}.

Lemma playback_starts_within_buffer_witness :
  pending sampleDecoding = AwaitDecode /\
  calls (sampleStep sampleDecoding (DecodeSettled (Some sampleShortClip))) =
    calls sampleDecoding ++
    [CreateBufferSource; CreateAnalyser 2048; Connect;
     SourceStart 0 0.05 5; SetTimeout 100].
Proof.
  split; [reflexivity |].
  destruct (playback_starts_within_buffer RefHost.log10 RefHost.scaleLog
              RefHost.scaleLinear Sample.eqSettings sampleDecoding sampleShortClip
              eq_refl eq_refl) as (Hcalls & _ & _ & _ & Hshort & _).
  rewrite (Hshort eq_refl) in Hcalls. exact Hcalls.
Defined.

Lemma rejected_only_by_constructor_or_blob_read_witness :
  promise (sampleRun (mount true true (Some Sample.svg))
             [Cleanup; ArrayBufferSettled false]) = Rejected /\
  In (ArrayBufferSettled false) [Cleanup; ArrayBufferSettled false] /\
  promise (sampleRun (mount true false (Some Sample.svg))
             [ArrayBufferSettled true; DecodeSettled None; Cleanup]) = Rejected.
Proof.
  split; [reflexivity |]. split.
  - destruct (proj1 (rejected_only_by_constructor_or_blob_read RefHost.log10
                       RefHost.scaleLog RefHost.scaleLinear Sample.eqSettings
                       true true (Some Sample.svg) [Cleanup; ArrayBufferSettled false])
                eq_refl) as [(_ & _ & Hctx) | Hin]; [discriminate | exact Hin].
  - apply (proj2 (rejected_only_by_constructor_or_blob_read RefHost.log10
                    RefHost.scaleLog RefHost.scaleLinear Sample.eqSettings
                    true false (Some Sample.svg)
                    [ArrayBufferSettled true; DecodeSettled None; Cleanup]));
      [reflexivity | discriminate | reflexivity].
Defined.



Example formatTime_examples :
  AudioInput.formatTime 0 = "00:00" /\ AudioInput.formatTime 75 = "01:15" /\
  AudioInput.formatTime 3599 = "59:59" /\ AudioInput.formatTime (100 * 60) = "100:00".
Proof. repeat split; vm_compute; reflexivity. Qed.

Lemma formatTime_length_witness :
  (75 < 100 * 60)%nat /\ String.length (AudioInput.formatTime 75) = 5%nat.
Proof.
  split; [lia |].
  exact (proj1 (proj2 (AudioInput.formatTime_length 75) ltac:(lia))).
Defined.

Lemma formatTime_injective_witness :
  AudioInput.formatTime (60 + 15) = AudioInput.formatTime 75 /\ (60 + 15 = 75)%nat.
Proof.
  split; [reflexivity |].
  apply (AudioInput.formatTime_injective (60 + 15) 75). reflexivity.
Defined.

(** An MP3 file and a PDF file, as the file input delivers them. *)
Definition sampleMp3 : Blob.t := {| Blob.type := "audio/mpeg"; Blob.bytes := [x49; x44; x33] |}.
Definition samplePdf : Blob.t := {| Blob.type := "application/pdf"; Blob.bytes := [x25; x50] |}.

Lemma only_audio_is_submitted_witness :
  AudioInput.submitted
    (AudioInput.run AudioInput.initial
       [AudioInput.FileChosen (Some samplePdf) "blob:1"; AudioInput.SubmitClicked;
        AudioInput.FileChosen (Some sampleMp3) "blob:2"; AudioInput.SubmitClicked]) =
    [(sampleMp3, "audio/mpeg")] /\
  String.prefix "audio/" (Blob.type sampleMp3) = true.
Proof.
  split; [reflexivity |].
  apply (AudioInput.only_audio_is_submitted
           [AudioInput.FileChosen (Some samplePdf) "blob:1"; AudioInput.SubmitClicked;
            AudioInput.FileChosen (Some sampleMp3) "blob:2"; AudioInput.SubmitClicked]
           sampleMp3 "audio/mpeg").
  left. reflexivity.
Defined.

Lemma blobToBase64_payload_witness :
  App.blobToBase64 (App.LoadEnd (Some "data:audio/webm;base64,GkXfo59ChoEB")) =
  App.Resolved (Some "GkXfo59ChoEB").
Proof.
  apply (App.blobToBase64_payload "data:audio/webm;base64" "GkXfo59ChoEB");
    reflexivity.
Defined.

(** A stand-in for [JSON.parse] on three texts, to run the model. *)
Definition sampleParse (text : string) : App.Parsed :=
  if String.eqb text "null" then App.Parses App.Null
  else if String.eqb text "{}" then
    App.Parses (App.Object {| App.resultVocalProfile := None; App.eqPreset := None;
                              App.resultAudacityXml := None |})
  else App.ParseFails "Unexpected token in JSON".

Definition sampleNullMessage : string := "Cannot read properties of null".

Lemma analyzeAudio_outcomes_witness :
  App.analyzeAudio sampleParse (App.ApiResponds (Some "")) =
    App.RejectedWith (App.JsError App.failureMessage) /\
  App.JsError App.failureMessage <> App.JsError "Gemini returned an empty response.".
Proof.
  destruct (App.analyzeAudio_outcomes sampleParse (App.ApiResponds (Some "")))
    as (_ & Hrej & Hempty).
  pose proof (Hempty (or_intror eq_refl)) as H.
  split; [exact H | exact (proj2 (Hrej _ H))].
Defined.

(** A submission whose read fails, and one answered by the text [{}]. *)
Definition sampleFailedRead : list App.Event :=
  [App.Submit sampleMp3 "audio/mpeg"; App.Settle App.ReadError (App.ApiResponds None)].
Definition sampleEmptyAnswer : list App.Event :=
  [App.Submit sampleMp3 "audio/mpeg";
   App.Settle (App.LoadEnd (Some "data:audio/mpeg;base64,SUQz"))
              (App.ApiResponds (Some "{}"))].

Lemma state_follows_status_witness :
  App.status (App.run sampleParse sampleNullMessage App.initial sampleFailedRead) = App.Error /\
  App.audioBlob (App.run sampleParse sampleNullMessage App.initial sampleFailedRead) <> None.
Proof.
  split; [reflexivity |].
  apply (proj1 (proj2 (App.state_follows_status sampleParse sampleNullMessage
                         sampleFailedRead))).
  discriminate.
Defined.

Lemma error_panel_texts_witness :
  App.error (App.run sampleParse sampleNullMessage App.initial sampleFailedRead) =
    Some "An unknown error occurred during analysis." /\
  In "An unknown error occurred during analysis."
     [ App.safetyMessage; App.failureMessage; "Failed to convert blob to base64";
       "An unknown error occurred during analysis."; sampleNullMessage ].
Proof.
  split; [reflexivity |].
  apply (App.error_panel_texts sampleParse sampleNullMessage sampleFailedRead).
  reflexivity.
Defined.

Lemma blank_success_is_final_witness :
  App.renderContent
    (App.run sampleParse sampleNullMessage App.initial sampleEmptyAnswer) = App.Nothing /\
  App.run sampleParse sampleNullMessage
    (App.run sampleParse sampleNullMessage App.initial sampleEmptyAnswer)
    [App.Reset; App.Submit sampleMp3 "audio/mpeg"] =
  App.run sampleParse sampleNullMessage App.initial sampleEmptyAnswer.
Proof.
  split; [reflexivity |].
  apply (App.blank_success_is_final sampleParse sampleNullMessage sampleEmptyAnswer
           [App.Reset; App.Submit sampleMp3 "audio/mpeg"]).
  reflexivity.
Defined.
